(** * A to-do list web application: the view functions of [app.py]

    The development embeds the request handlers of [src/app.py] as
    functions over an explicit application state (the two tables of the
    relational store and the browser session) and proves the properties
    the specification states about them.

    Modelling conventions.
    - A Python [str] is a [string]; a character is an 8-bit code point
      (the Latin-1 range of Unicode).  On that range Python's [\d] is
      exactly [0-9] and [str.isspace] is the table [isspace] below.
    - Python integers (row identifiers, timestamps) are [Z].  The keys
      SQLite stores and binds are signed 64-bit integers
      ([sqlite_integer]); the user id of a session is the key of the user
      who logged in.
    - A table is the list of its rows, in insertion order.
    - [flash] is an output of the request: the messages flashed while a
      view runs are returned with its response.
    - The views are modelled as Flask dispatches them, after routing and
      CSRF checking. *)

From Stdlib Require Import String Ascii List ZArith Bool Arith Lia.
From Stdlib Require Import Sorting.Sorted Sorting.Permutation.
Import ListNotations.

Local Open Scope string_scope.

(** ** Python strings *)

Module PyStr.

Definition code (c : ascii) : nat := nat_of_ascii c.

Definition between (lo hi : nat) (c : ascii) : bool :=
  (lo <=? code c)%nat && (code c <=? hi)%nat.

(** [A-Z], [a-z], [\d] and [[a-zA-Z0-9_]] of the [re] module. *)
Definition is_upper (c : ascii) : bool := between 65 90 c.
Definition is_lower (c : ascii) : bool := between 97 122 c.
Definition is_digit (c : ascii) : bool := between 48 57 c.
Definition is_word (c : ascii) : bool :=
  is_lower c || is_upper c || is_digit c || (code c =? 95)%nat.

(** [str.isspace] on one character: TAB..CR, FS..US, SPACE, NEL, NBSP. *)
Definition isspace (c : ascii) : bool :=
  between 9 13 c || between 28 32 c || (code c =? 133)%nat || (code c =? 160)%nat.

Definition LF : ascii := ascii_of_nat 10.

Definition len (s : string) : Z := Z.of_nat (String.length s).

Fixpoint lstrip (s : string) : string :=
  match s with
  | EmptyString => EmptyString
  | String c s' => if isspace c then lstrip s' else s
  end.

Fixpoint rstrip (s : string) : string :=
  match s with
  | EmptyString => EmptyString
  | String c s' =>
      match rstrip s' with
      | EmptyString => if isspace c then EmptyString else String c EmptyString
      | r => String c r
      end
  end.

(** [s.strip()] *)
Definition strip (s : string) : string := rstrip (lstrip s).

(** [not s] for a string: only the empty string is falsy. *)
Definition falsy (s : string) : bool :=
  match s with EmptyString => true | _ => false end.

(** [re.search(cls, s)] for a one-character class. *)
Fixpoint re_search (cls : ascii -> bool) (s : string) : bool :=
  match s with
  | EmptyString => false
  | String c s' => cls c || re_search cls s'
  end.

Fixpoint all_chars (cls : ascii -> bool) (s : string) : bool :=
  match s with
  | EmptyString => true
  | String c s' => cls c && all_chars cls s'
  end.

(** The rest of a match of [[a-zA-Z0-9_]+$] once a first character has
    been consumed: more characters of the class, then [$], which
    matches at the end of the string and also just before a newline
    that ends the string. *)
Fixpoint word_tail (s : string) : bool :=
  match s with
  | EmptyString => true
  | String c s' =>
      if is_word c then word_tail s'
      else (code c =? 10)%nat && falsy s'
  end.

(** [re.match(r'^[a-zA-Z0-9_]+$', s)] *)
Definition re_match_word_line (s : string) : bool :=
  match s with
  | EmptyString => false
  | String c s' => is_word c && word_tail s'
  end.

End PyStr.

Import PyStr.

(** ** Validation utilities *)

Definition validate_password (password : string) : bool * string :=
  if (len password <? 8)%Z then
    (false, "Password must be at least 8 characters long")
  else if negb (re_search is_upper password) then
    (false, "Password must contain at least one uppercase letter")
  else if negb (re_search is_lower password) then
    (false, "Password must contain at least one lowercase letter")
  else if negb (re_search is_digit password) then
    (false, "Password must contain at least one number")
  else (true, "Password is valid").

Definition validate_username (username : string) : bool * string :=
  if (len username <? 3)%Z then
    (false, "Username must be at least 3 characters long")
  else if (len username >? 20)%Z then
    (false, "Username must be less than 20 characters")
  else if negb (re_match_word_line username) then
    (false, "Username can only contain letters, numbers, and underscores")
  else (true, "Username is valid").

(** The rule table of the specification, for comparison with the two
    validators: a username has 3 to 20 characters, all of them letters,
    digits or underscores; a password has at least 8 characters, among
    them an uppercase letter, a lowercase letter and a digit. *)
Definition username_rule (username : string) : bool :=
  (3 <=? len username)%Z && (len username <=? 20)%Z && all_chars is_word username.

Definition password_rule (password : string) : bool :=
  (8 <=? len password)%Z && re_search is_upper password
  && re_search is_lower password && re_search is_digit password.

(** ** Password hashing (werkzeug.security)

    [generate_password_hash] draws a fresh salt at every call; the salt
    is an explicit argument here.  The views use the two functions only
    through [User.set_password] and [User.check_password]. *)

Class PasswordHasher : Type := {
  generate_password_hash : string -> string -> string;
  check_password_hash : string -> string -> bool
}.

(** ** Database models *)

Module User.
Record t : Type := {
  id : Z;
  username : string;
  password_hash : string;
  created_at : Z
}.
End User.

Module Task.
Record t : Type := {
  id : Z;
  title : string;
  description : string;
  completed : bool;
  created_at : Z;
  updated_at : Z;
  user_id : Z
}.
End Task.

Record Database : Type := {
  users : list User.t;
  tasks : list Task.t
}.

(** The Flask session: the two keys the application writes.  A key that
    is absent from the dictionary is [None]. *)
Module Session.
Record t : Type := {
  user_id : option Z;
  username : option string
}.

(** [session.clear()] *)
Definition clear : t := {| user_id := None; username := None |}.

(** ['user_id' in session] *)
Definition has_user_id (s : t) : bool :=
  match user_id s with Some _ => true | None => false end.
End Session.

Record App : Type := {
  db : Database;
  session : Session.t
}.

(** ** Requests and responses *)

Inductive Method : Type := GET | POST.

(** What a view reads from its environment: the request, the clock
    ([utcnow k] is the value of the [k]-th call of [datetime.utcnow()]
    while the request is served), whether [db.session.commit()] succeeds,
    and the salt drawn by the password hasher. *)
Record Request : Type := {
  method : Method;
  form : list (string * string);
  args : list (string * string);
  utcnow : nat -> Z;
  commit_ok : bool;
  salt : string
}.

(** [d.get(key, default)] on a form or query-string dictionary. *)
Fixpoint get (d : list (string * string)) (key default : string) : string :=
  match d with
  | [] => default
  | (k, v) :: d' => if (k =? key)%string then v else get d' key default
  end.

Inductive Endpoint : Type :=
  | ep_index | ep_login | ep_dashboard.

Inductive Template : Type :=
  | index_html
  | register_html
  | login_html
  | dashboard_html (user : User.t) (tasks : list Task.t)
      (total_tasks completed_tasks incomplete_tasks : Z) (search_query : string)
  | edit_task_html (task : Task.t)
  | not_found_html
  | server_error_html.

Inductive Body : Type :=
  | Redirect (target : Endpoint)
  | Render (page : Template).

Definition Flash : Type := (string * string)%type.

Record Response : Type := {
  body : Body;
  status : Z;
  flashes : list Flash
}.

Definition flash (message category : string) : Flash := (message, category).

Definition redirect (target : Endpoint) (fl : list Flash) : Response :=
  {| body := Redirect target; status := 302; flashes := fl |}.

Definition render_template (page : Template) (fl : list Flash) : Response :=
  {| body := Render page; status := 200; flashes := fl |}.

(** A view either returns a response and the state it leaves, or raises
    an HTTP exception, which Flask hands to the registered error
    handler. *)
Inductive HTTPException : Type := NotFound | InternalServerError.

Inductive Outcome : Type :=
  | Raise (e : HTTPException)
  | Return (r : Response) (st : App).

Definition View : Type := App -> Request -> Outcome.

(** ** Queries *)

(** [User.query.filter_by(username=username).first()]; SQLite compares
    text with the BINARY collation, byte for byte. *)
Definition user_by_username (us : list User.t) (username : string) : option User.t :=
  find (fun u => (User.username u =? username)%string) us.

(** [User.query.get(id)] *)
Definition user_get (us : list User.t) (id : Z) : option User.t :=
  find (fun u => (User.id u =? id)%Z) us.

(** An integer SQLite can bind as a parameter: a signed 64-bit value. *)
Definition sqlite_integer (i : Z) : bool :=
  (- 2 ^ 63 <=? i)%Z && (i <? 2 ^ 63)%Z.

(** [Task.query.get_or_404(task_id)]: the row stored under the key, or
    [None] when the call raises instead of returning.  The key is bound
    as a parameter of the query first, which fails for an integer that
    is not a signed 64-bit value; [get_or_404_error] tells what is
    raised. *)
Definition get_or_404 (ts : list Task.t) (task_id : Z) : option Task.t :=
  if sqlite_integer task_id then find (fun t => (Task.id t =? task_id)%Z) ts
  else None.

(** What [get_or_404] raises when it returns no row: the 404 of a key
    that is not in the table, or, for a key SQLite cannot bind, the
    [OverflowError] of the driver, which is not an HTTP exception and
    reaches the handler of status 500. *)
Definition get_or_404_error (task_id : Z) : HTTPException :=
  if sqlite_integer task_id then NotFound else InternalServerError.

(** [Task.query.filter_by(user_id=uid)] *)
Definition tasks_of (ts : list Task.t) (uid : Z) : list Task.t :=
  filter (fun t => (Task.user_id t =? uid)%Z) ts.

(** The integer primary key SQLite gives a new row: one more than the
    largest key of the table, 1 for an empty table. *)
Definition next_id (ids : list Z) : Z := (fold_right Z.max 0 ids + 1)%Z.

(** *** SQLite's LIKE

    [Task.title.contains(q)] is rendered as [title LIKE '%' || q || '%'].
    SQLite's built-in LIKE folds the case of ASCII letters only; in the
    pattern [%] matches any run of characters and [_] any one character,
    and no escape character is given.  Pattern and text are read up to
    their first NUL character, and a pattern of more than 50000 bytes
    is refused with the error "LIKE or GLOB pattern too complex". *)

Definition ascii_lower (c : ascii) : ascii :=
  if is_upper c then ascii_of_nat (code c + 32) else c.

Definition eq_nocase (c d : ascii) : bool :=
  Ascii.eqb (ascii_lower c) (ascii_lower d).

Definition percent : ascii := ascii_of_nat 37.
Definition underscore : ascii := ascii_of_nat 95.

(** The comparison of a pattern with a text, both free of NUL. *)
Fixpoint pattern_compare (pattern s : string) : bool :=
  match pattern with
  | EmptyString => falsy s
  | String p pattern' =>
      if Ascii.eqb p percent then
        (fix any (s : string) : bool :=
           pattern_compare pattern' s ||
           match s with
           | EmptyString => false
           | String _ s' => any s'
           end) s
      else
        match s with
        | EmptyString => false
        | String c s' =>
            (Ascii.eqb p underscore || eq_nocase p c) && pattern_compare pattern' s'
        end
  end.

(** The part of a string before its first NUL character. *)
Fixpoint until_nul (s : string) : string :=
  match s with
  | EmptyString => EmptyString
  | String c s' =>
      if (code c =? 0)%nat then EmptyString else String c (until_nul s')
  end.

(** The length of a string in UTF-8: two bytes for a character above
    U+007F. *)
Fixpoint utf8_bytes (s : string) : Z :=
  match s with
  | EmptyString => 0%Z
  | String c s' => ((if (code c <? 128)%nat then 1 else 2) + utf8_bytes s')%Z
  end.

(** [s LIKE pattern]; [None] is the error for a pattern that is too
    long. *)
Definition like (pattern s : string) : option bool :=
  if (utf8_bytes pattern >? 50000)%Z then None
  else Some (pattern_compare (until_nul pattern) (until_nul s)).

Definition contains (column q : string) : option bool :=
  like (String percent (q ++ String percent EmptyString)) column.

(** The rows of a scan that pass a test; the scan stops with the error
    of the first row whose test raises. *)
Fixpoint select_where (test : Task.t -> option bool) (rows : list Task.t)
    : option (list Task.t) :=
  match rows with
  | [] => Some []
  | x :: rows' =>
      match test x with
      | None => None
      | Some b =>
          match select_where test rows' with
          | None => None
          | Some kept => Some (if b then x :: kept else kept)
          end
      end
  end.

(** [order_by(Task.created_at.desc())]: each row of the scan is put
    before the first row that is not newer, so rows created at the same
    time stay in the order of the scan, which is that of their keys. *)
Fixpoint insert_desc (t : Task.t) (l : list Task.t) : list Task.t :=
  match l with
  | [] => [t]
  | x :: l' =>
      if (Task.created_at x <=? Task.created_at t)%Z then t :: l
      else x :: insert_desc t l'
  end.

Definition order_by_created_at_desc (l : list Task.t) : list Task.t :=
  fold_right insert_desc [] l.

(** The comparison the specification asks of the search: [q] occurs in
    [s] as a substring, letters compared without regard to case. *)
Fixpoint ci_prefix (q s : string) : bool :=
  match q with
  | EmptyString => true
  | String c q' =>
      match s with
      | EmptyString => false
      | String d s' => eq_nocase c d && ci_prefix q' s'
      end
  end.

Fixpoint ci_substring (q s : string) : bool :=
  ci_prefix q s ||
  match s with
  | EmptyString => false
  | String _ s' => ci_substring q s'
  end.

Definition no_wildcard (q : string) : bool :=
  all_chars (fun c => negb (Ascii.eqb c percent || Ascii.eqb c underscore)) q.

(** No NUL character in the string. *)
Definition no_nul (q : string) : bool :=
  all_chars (fun c => negb (code c =? 0)%nat) q.

(** The pattern [%q%] is within SQLite's limit of 50000 bytes. *)
Definition pattern_fits (q : string) : bool :=
  (utf8_bytes q + 2 <=? 50000)%Z.

(** ** Writing to the store *)

Definition with_db (st : App) (d : Database) : App :=
  {| db := d; session := session st |}.

Definition with_session (st : App) (s : Session.t) : App :=
  {| db := db st; session := s |}.

Definition with_users (d : Database) (us : list User.t) : Database :=
  {| users := us; tasks := tasks d |}.

Definition with_tasks (d : Database) (ts : list Task.t) : Database :=
  {| users := users d; tasks := ts |}.

(** [db.session.add(user)]: the INSERT fails on the UNIQUE constraint of
    the username column. *)
Definition add_user (d : Database) (u : User.t) : option Database :=
  match user_by_username (users d) (User.username u) with
  | Some _ => None
  | None => Some (with_users d (users d ++ [u]))
  end.

(** [db.session.add(task)] *)
Definition add_row (d : Database) (t : Task.t) : option Database :=
  Some (with_tasks d (tasks d ++ [t])).

(** The UPDATE that flushes a modified task: rows are addressed by
    primary key. *)
Definition update_row (d : Database) (t : Task.t) : option Database :=
  Some (with_tasks d
          (map (fun x => if (Task.id x =? Task.id t)%Z then t else x) (tasks d))).

(** [db.session.delete(task)] *)
Definition delete_row (d : Database) (t : Task.t) : option Database :=
  Some (with_tasks d
          (filter (fun x => negb (Task.id x =? Task.id t)%Z) (tasks d))).

(** [db.session.commit()] inside [try]: the pending write reaches the
    store, or an exception is raised and [db.session.rollback()] leaves
    the store as it was ([None]). *)
Definition commit (rq : Request) (pending : option Database) : option Database :=
  if commit_ok rq then pending else None.

(** ** Model methods *)

Section Views.

Context `{Hasher : PasswordHasher}.

(** [User(username=username)] followed by [user.set_password(password)] *)
Definition new_user (d : Database) (rq : Request) (username password : string) : User.t :=
  {| User.id := next_id (map User.id (users d));
     User.username := username;
     User.password_hash := generate_password_hash (salt rq) password;
     User.created_at := utcnow rq 0 |}.

Definition check_password (u : User.t) (password : string) : bool :=
  check_password_hash (User.password_hash u) password.

(** [Task(title=..., description=..., user_id=...)] with the column
    defaults. *)
Definition new_task (d : Database) (rq : Request)
    (title description : string) (uid : Z) : Task.t :=
  {| Task.id := next_id (map Task.id (tasks d));
     Task.title := title;
     Task.description := description;
     Task.completed := false;
     Task.created_at := utcnow rq 0;
     Task.updated_at := utcnow rq 1;
     Task.user_id := uid |}.

(** ** Error handlers *)

Definition not_found_error : Response :=
  {| body := Render not_found_html; status := 404; flashes := [] |}.

Definition internal_error : Response :=
  {| body := Render server_error_html; status := 500; flashes := [] |}.

(** ** Authentication decorator *)

Definition login_required (f : View) : View :=
  fun st rq =>
    if negb (Session.has_user_id (session st)) then
      Return (redirect ep_login
                [flash "Please log in to access this page." "error"]) st
    else f st rq.

(** ** Routes *)

Definition index : View :=
  fun st rq =>
    if Session.has_user_id (session st) then Return (redirect ep_dashboard []) st
    else Return (render_template index_html []) st.

Definition register : View :=
  fun st rq =>
    if Session.has_user_id (session st) then Return (redirect ep_dashboard []) st
    else
      match method rq with
      | GET => Return (render_template register_html []) st
      | POST =>
          let username := strip (get (form rq) "username" EmptyString) in
          let password := get (form rq) "password" EmptyString in
          let confirm_password := get (form rq) "confirm_password" EmptyString in
          if falsy username then
            Return (render_template register_html
                      [flash "Username is required." "error"]) st
          else if falsy password then
            Return (render_template register_html
                      [flash "Password is required." "error"]) st
          else
            let (username_valid, username_msg) := validate_username username in
            if negb username_valid then
              Return (render_template register_html [flash username_msg "error"]) st
            else
              let (password_valid, password_msg) := validate_password password in
              if negb password_valid then
                Return (render_template register_html [flash password_msg "error"]) st
              else if negb (password =? confirm_password)%string then
                Return (render_template register_html
                          [flash "Passwords do not match." "error"]) st
              else
                match user_by_username (users (db st)) username with
                | Some _ =>
                    Return (render_template register_html
                              [flash "Username already exists. Please choose a different one."
                                 "error"]) st
                | None =>
                    let user := new_user (db st) rq username password in
                    match commit rq (add_user (db st) user) with
                    | Some d =>
                        Return (redirect ep_login
                                  [flash "Registration successful! Please log in." "success"])
                               (with_db st d)
                    | None =>
                        Return (render_template register_html
                                  [flash "An error occurred during registration. Please try again."
                                     "error"]) st
                    end
                end
      end.

Definition login : View :=
  fun st rq =>
    if Session.has_user_id (session st) then Return (redirect ep_dashboard []) st
    else
      match method rq with
      | GET => Return (render_template login_html []) st
      | POST =>
          let username := strip (get (form rq) "username" EmptyString) in
          let password := get (form rq) "password" EmptyString in
          if falsy username || falsy password then
            Return (render_template login_html
                      [flash "Username and password are required." "error"]) st
          else
            match user_by_username (users (db st)) username with
            | Some user =>
                if check_password user password then
                  Return (redirect ep_dashboard
                            [flash ("Welcome back, " ++ User.username user ++ "!") "success"])
                         (with_session st
                            {| Session.user_id := Some (User.id user);
                               Session.username := Some (User.username user) |})
                else
                  Return (render_template login_html
                            [flash "Invalid username or password." "error"]) st
            | None =>
                Return (render_template login_html
                          [flash "Invalid username or password." "error"]) st
            end
      end.

Definition logout : View :=
  login_required (fun st rq =>
    Return (redirect ep_index
              [flash "You have been logged out successfully." "success"])
           (with_session st Session.clear)).

Definition dquote : string := String (ascii_of_nat 34) EmptyString.

(** The LIKE of the search is tested on the rows that passed the test
    on [user_id]; its error is raised when the rows are fetched, outside
    any [try], and reaches the handler of status 500. *)
Definition dashboard : View :=
  login_required (fun st rq =>
    match Session.user_id (session st) with
    | None => Raise InternalServerError
    | Some uid =>
        match user_get (users (db st)) uid with
        | None =>
            Return (redirect ep_login
                      [flash "User not found. Please log in again." "error"])
                   (with_session st Session.clear)
        | Some user =>
            let search_query := strip (get (args rq) "search" EmptyString) in
            let tasks_query := tasks_of (tasks (db st)) (User.id user) in
            let tasks_query :=
              if negb (falsy search_query) then
                select_where (fun t => contains (Task.title t) search_query)
                  tasks_query
              else Some tasks_query in
            match tasks_query with
            | None => Raise InternalServerError
            | Some rows =>
                let tasks' := order_by_created_at_desc rows in
                let total_tasks :=
                  if negb (falsy search_query) then Z.of_nat (length tasks')
                  else Z.of_nat (length (tasks_of (tasks (db st)) (User.id user))) in
                let completed_tasks :=
                  Z.of_nat (length (filter Task.completed tasks')) in
                let incomplete_tasks := (total_tasks - completed_tasks)%Z in
                Return (render_template
                          (dashboard_html user tasks' total_tasks completed_tasks
                             incomplete_tasks search_query) []) st
            end
        end
    end).

Definition add_task : View :=
  login_required (fun st rq =>
    let title := strip (get (form rq) "title" EmptyString) in
    let description := strip (get (form rq) "description" EmptyString) in
    if falsy title then
      Return (redirect ep_dashboard [flash "Task title is required." "error"]) st
    else if (len title >? 200)%Z then
      Return (redirect ep_dashboard
                [flash "Task title must be less than 200 characters." "error"]) st
    else if (len description >? 200)%Z then
      Return (redirect ep_dashboard
                [flash "Task description must be less than 200 characters." "error"]) st
    else
      let written :=
        match Session.user_id (session st) with
        | None => None
        | Some uid =>
            commit rq (add_row (db st) (new_task (db st) rq title description uid))
        end in
      match written with
      | Some d =>
          Return (redirect ep_dashboard [flash "Task added successfully!" "success"])
                 (with_db st d)
      | None =>
          Return (redirect ep_dashboard
                    [flash "An error occurred while adding the task. Please try again."
                       "error"]) st
      end).

(** An assignment of the value an attribute already has is no change
    for the unit of work.  So when [datetime.utcnow()] returns the stored
    [updated_at] and another column changes, the UPDATE takes
    [updated_at] from the column's [onupdate=datetime.utcnow], a second
    reading of the clock. *)
Definition edit_task (task_id : Z) : View :=
  login_required (fun st rq =>
    match get_or_404 (tasks (db st)) task_id with
    | None => Raise (get_or_404_error task_id)
    | Some task =>
        match Session.user_id (session st) with
        | None => Raise InternalServerError
        | Some uid =>
            if negb (Task.user_id task =? uid)%Z then
              Return (redirect ep_dashboard
                        [flash "You can only edit your own tasks." "error"]) st
            else
              match method rq with
              | GET => Return (render_template (edit_task_html task) []) st
              | POST =>
                  let title := strip (get (form rq) "title" EmptyString) in
                  let description := strip (get (form rq) "description" EmptyString) in
                  if falsy title then
                    Return (render_template (edit_task_html task)
                              [flash "Task title is required." "error"]) st
                  else if (len title >? 200)%Z then
                    Return (render_template (edit_task_html task)
                              [flash "Task title must be less than 200 characters." "error"]) st
                  else if (len description >? 200)%Z then
                    Return (render_template (edit_task_html task)
                              [flash "Task description must be less than 200 characters."
                                 "error"]) st
                  else
                    let assigned := utcnow rq 0 in
                    let changed :=
                      negb (title =? Task.title task)%string
                      || negb (description =? Task.description task)%string in
                    let task' :=
                      {| Task.id := Task.id task;
                         Task.title := title;
                         Task.description := description;
                         Task.completed := Task.completed task;
                         Task.created_at := Task.created_at task;
                         Task.updated_at :=
                           if (assigned =? Task.updated_at task)%Z && changed
                           then utcnow rq 1 else assigned;
                         Task.user_id := Task.user_id task |} in
                    match commit rq (update_row (db st) task') with
                    | Some d =>
                        Return (redirect ep_dashboard
                                  [flash "Task updated successfully!" "success"])
                               (with_db st d)
                    | None =>
                        Return (render_template (edit_task_html task)
                                  [flash "An error occurred while updating the task. Please try again."
                                     "error"]) st
                    end
              end
        end
    end).

(** The completed flag always changes, so the UPDATE is always issued;
    [updated_at] is the assigned reading of the clock, or that of
    [onupdate] when the assigned one equals the stored value. *)
Definition toggle_task (task_id : Z) : View :=
  login_required (fun st rq =>
    match get_or_404 (tasks (db st)) task_id with
    | None => Raise (get_or_404_error task_id)
    | Some task =>
        match Session.user_id (session st) with
        | None => Raise InternalServerError
        | Some uid =>
            if negb (Task.user_id task =? uid)%Z then
              Return (redirect ep_dashboard
                        [flash "You can only modify your own tasks." "error"]) st
            else
              let assigned := utcnow rq 0 in
              let task' :=
                {| Task.id := Task.id task;
                   Task.title := Task.title task;
                   Task.description := Task.description task;
                   Task.completed := negb (Task.completed task);
                   Task.created_at := Task.created_at task;
                   Task.updated_at :=
                     if (assigned =? Task.updated_at task)%Z
                     then utcnow rq 1 else assigned;
                   Task.user_id := Task.user_id task |} in
              match commit rq (update_row (db st) task') with
              | Some d =>
                  let status :=
                    if Task.completed task' then "completed"
                    else "marked as incomplete" in
                  Return (redirect ep_dashboard
                            [flash ("Task " ++ dquote ++ Task.title task' ++ dquote
                                      ++ " " ++ status ++ "!") "success"])
                         (with_db st d)
              | None =>
                  Return (redirect ep_dashboard
                            [flash "An error occurred while updating the task. Please try again."
                               "error"]) st
              end
        end
    end).

Definition delete_task (task_id : Z) : View :=
  login_required (fun st rq =>
    match get_or_404 (tasks (db st)) task_id with
    | None => Raise (get_or_404_error task_id)
    | Some task =>
        match Session.user_id (session st) with
        | None => Raise InternalServerError
        | Some uid =>
            if negb (Task.user_id task =? uid)%Z then
              Return (redirect ep_dashboard
                        [flash "You can only delete your own tasks." "error"]) st
            else
              match commit rq (delete_row (db st) task) with
              | Some d =>
                  Return (redirect ep_dashboard
                            [flash ("Task " ++ dquote ++ Task.title task ++ dquote
                                      ++ " deleted successfully!") "success"])
                         (with_db st d)
              | None =>
                  Return (redirect ep_dashboard
                            [flash "An error occurred while deleting the task. Please try again."
                               "error"]) st
              end
        end
    end).

(** What the browser receives for a request handled by view [v]: the
    view's response, or the page of the error handler registered for
    the exception it raised. *)
Definition serve (v : View) (st : App) (rq : Request) : Response * App :=
  match v st rq with
  | Return r st' => (r, st')
  | Raise NotFound => (not_found_error, st)
  | Raise InternalServerError => (internal_error, st)
  end.

End Views.

(** ** Observations on outcomes *)

(** The notice of the ownership gate of the three task routes. *)
Definition foreign_notice (verb : string) : list Flash :=
  [flash ("You can only " ++ verb ++ " your own tasks.") "error"].

(** The task list handed to [dashboard.html], if the view rendered it. *)
Definition rendered_tasks (o : Outcome) : option (list Task.t) :=
  match o with
  | Return {| body := Render (dashboard_html _ l _ _ _ _) |} _ => Some l
  | _ => None
  end.

(** Newest-created-first: the row in front is at least as recent. *)
Definition newer_first (a b : Task.t) : Prop :=
  (Task.created_at b <= Task.created_at a)%Z.

(** The state a view leaves, whatever it answers. *)
Definition state_after (v : View) (st : App) (rq : Request) : App :=
  snd (serve v st rq).

(** The notices of the validation of a task's title and description. *)
Definition validation_notices : list string :=
  [ "Task title is required.";
    "Task title must be less than 200 characters.";
    "Task description must be less than 200 characters." ].

(** A task form is rejected before persistence: the answer carries one
    of the validation notices and the state is the one before. *)
Definition rejected (o : Outcome) (st : App) : Prop :=
  exists r msg,
    o = Return r st /\ flashes r = [flash msg "error"] /\ In msg validation_notices.

(** The test the task routes apply to the stripped title and
    description. *)
Definition task_form_invalid (title description : string) : Prop :=
  title = EmptyString \/ (200 < len title)%Z \/ (200 < len description)%Z.

(** The row [toggle_task] writes. *)
Definition toggled (t : Task.t) (now : Z) : Task.t :=
  {| Task.id := Task.id t;
     Task.title := Task.title t;
     Task.description := Task.description t;
     Task.completed := negb (Task.completed t);
     Task.created_at := Task.created_at t;
     Task.updated_at := now;
     Task.user_id := Task.user_id t |}.

(** The [updated_at] a write of a task stores: the first reading of
    the clock, or the second when the first equals the stored value and
    another column changes. *)
Definition written_at (rq : Request) (stored : Z) (other_change : bool) : Z :=
  if (utcnow rq 0 =? stored)%Z && other_change then utcnow rq 1 else utcnow rq 0.

(** The form changes the title or the description of the task. *)
Definition form_changes (t : Task.t) (title description : string) : bool :=
  negb (title =? Task.title t)%string
  || negb (description =? Task.description t)%string.

(** The test of the search on a title, for a pattern within the limit:
    [%q%] and the title, each read up to its first NUL. *)
Definition like_matches (q title : string) : bool :=
  pattern_compare (until_nul (String percent (q ++ String percent EmptyString)))
    (until_nul title).

(** The row [edit_task] writes. *)
Definition edited (t : Task.t) (title description : string) (now : Z) : Task.t :=
  {| Task.id := Task.id t;
     Task.title := title;
     Task.description := description;
     Task.completed := Task.completed t;
     Task.created_at := Task.created_at t;
     Task.updated_at := now;
     Task.user_id := Task.user_id t |}.

(** The two answers of [login] to a submitted pair of credentials. *)
Definition login_failure (st : App) : Outcome :=
  Return (render_template login_html
            [flash "Invalid username or password." "error"]) st.

Definition login_success (st : App) (user : User.t) : Outcome :=
  Return (redirect ep_dashboard
            [flash ("Welcome back, " ++ User.username user ++ "!") "success"])
         (with_session st
            {| Session.user_id := Some (User.id user);
               Session.username := Some (User.username user) |}).

(** The two answers of [register] once the form has passed validation. *)
Definition register_success (st' : App) : Outcome :=
  Return (redirect ep_login
            [flash "Registration successful! Please log in." "success"]) st'.

Definition register_duplicate (st : App) : Outcome :=
  Return (render_template register_html
            [flash "Username already exists. Please choose a different one." "error"]) st.

(** ** Sample data

    A small store used to run the views on concrete requests. *)

Module Demo.

(** A stand-in for werkzeug's hasher: the hash of a password is the
    salt, a dollar sign and the password. *)
#[global] Instance tagged_hasher : PasswordHasher := {|
  generate_password_hash := fun salt password => salt ++ "$" ++ password;
  check_password_hash := fun hash password => (hash =? "na$" ++ password)%string
|}.

Definition alice : User.t :=
  {| User.id := 1; User.username := "alice_1";
     User.password_hash := "na$Passw0rd!"; User.created_at := 100 |}.

Definition bob : User.t :=
  {| User.id := 2; User.username := "bob_22";
     User.password_hash := "na$S3cretWord"; User.created_at := 110 |}.

Definition milk : Task.t :=
  {| Task.id := 1; Task.title := "Buy milk"; Task.description := EmptyString;
     Task.completed := false; Task.created_at := 200; Task.updated_at := 200;
     Task.user_id := 1 |}.

Definition letter : Task.t :=
  {| Task.id := 2; Task.title := "ba"; Task.description := "post it";
     Task.completed := true; Task.created_at := 300; Task.updated_at := 310;
     Task.user_id := 1 |}.

Definition bobs : Task.t :=
  {| Task.id := 3; Task.title := "Pay rent"; Task.description := EmptyString;
     Task.completed := false; Task.created_at := 250; Task.updated_at := 250;
     Task.user_id := 2 |}.

Definition store : Database :=
  {| users := [alice; bob]; tasks := [milk; letter; bobs] |}.

Definition anonymous : App :=
  {| db := store; session := Session.clear |}.

Definition as_alice : App :=
  {| db := store;
     session := {| Session.user_id := Some 1%Z; Session.username := Some "alice_1" |} |}.

Definition clock (k : nat) : Z := (1000 + Z.of_nat k)%Z.

Definition request (m : Method) (f a : list (string * string)) : Request :=
  {| method := m; form := f; args := a; utcnow := clock;
     commit_ok := true; salt := "na" |}.

Definition post (f : list (string * string)) : Request := request POST f [].

Definition search (q : string) : Request := request GET [] [("search", q)].

Definition signup (username password : string) : Request :=
  post [("username", username); ("password", password);
        ("confirm_password", password)].

Definition x200 : string :=
  Eval cbv in (fix rep (n : nat) : string :=
                 match n with O => EmptyString | S n' => String "x" (rep n') end) 200%nat.

(** A string of [n] letters. *)
Fixpoint letters (n : nat) : string :=
  match n with
  | O => EmptyString
  | S n' => String "x" (letters n')
  end.

Definition long_query : string := letters (Z.to_nat 49999).

End Demo.

(** ** The application as a whole

    The routing table of the [@app.route] decorators, and the store
    shared by several browsers, each with its own session cookie. *)

Inductive Route : Type :=
  | route_index
  | route_register
  | route_login
  | route_logout
  | route_dashboard
  | route_add_task
  | route_edit_task (task_id : Z)
  | route_toggle_task (task_id : Z)
  | route_delete_task (task_id : Z).

(** The [methods=] argument of each route; GET alone when it is absent. *)
Definition route_methods (r : Route) : list Method :=
  match r with
  | route_index => [GET]
  | route_register => [GET; POST]
  | route_login => [GET; POST]
  | route_logout => [GET]
  | route_dashboard => [GET]
  | route_add_task => [POST]
  | route_edit_task _ => [GET; POST]
  | route_toggle_task _ => [POST]
  | route_delete_task _ => [POST]
  end.

Definition method_eqb (a b : Method) : bool :=
  match a, b with
  | GET, GET | POST, POST => true
  | _, _ => false
  end.

Definition method_allowed (r : Route) (m : Method) : bool :=
  existsb (method_eqb m) (route_methods r).

(** The routes behind [@login_required]. *)
Definition protected (r : Route) : bool :=
  match r with
  | route_index | route_register | route_login => false
  | _ => true
  end.

(** The task a route names in its URL. *)
Definition route_task (r : Route) : option Z :=
  match r with
  | route_edit_task i | route_toggle_task i | route_delete_task i => Some i
  | _ => None
  end.

Record World : Type := {
  w_db : Database;
  w_cookies : nat -> Session.t
}.

(** One request: the browser that sends it, the route its URL selects
    and what the view reads. *)
Record Visit : Type := {
  v_browser : nat;
  v_route : Route;
  v_request : Request
}.

(** The store after [init_db] on a new database file, and browsers
    without a session cookie. *)
Definition initial : World :=
  {| w_db := {| users := []; tasks := [] |};
     w_cookies := fun _ => Session.clear |}.

Section Application.

Context `{Hasher : PasswordHasher}.

Definition route_view (r : Route) : View :=
  match r with
  | route_index => index
  | route_register => register
  | route_login => login
  | route_logout => logout
  | route_dashboard => dashboard
  | route_add_task => add_task
  | route_edit_task i => edit_task i
  | route_toggle_task i => toggle_task i
  | route_delete_task i => delete_task i
  end.

(** Flask answers a method the route does not list with 405 before any
    view runs ([None]); otherwise the view is served. *)
Definition dispatch (r : Route) (st : App) (rq : Request) : option (Response * App) :=
  if method_allowed r (method rq) then Some (serve (route_view r) st rq) else None.

Definition after (r : Route) (st : App) (rq : Request) : App :=
  match dispatch r st rq with
  | Some (_, st') => st'
  | None => st
  end.

Definition visit (w : World) (v : Visit) : World :=
  let st' := after (v_route v)
               {| db := w_db w; session := w_cookies w (v_browser v) |}
               (v_request v) in
  {| w_db := db st';
     w_cookies := fun b => if (b =? v_browser v)%nat then session st'
                           else w_cookies w b |}.

Definition run (w : World) (visits : list Visit) : World :=
  fold_left visit visits w.

(** Every stored hash is the hasher's output on a password of the rule
    table. *)
Definition hashes_from_rule (d : Database) : Prop :=
  forall u, In u (users d) ->
    exists s password,
      password_rule password = true
      /\ User.password_hash u = generate_password_hash s password.

End Application.

(** *** Conditions on the store *)

Definition usernames (d : Database) : list string := map User.username (users d).
Definition user_ids (d : Database) : list Z := map User.id (users d).
Definition task_ids (d : Database) : list Z := map Task.id (tasks d).

Definition keys_unique (d : Database) : Prop :=
  NoDup (user_ids d) /\ NoDup (task_ids d).

Definition usernames_unique (d : Database) : Prop := NoDup (usernames d).

Definition usernames_by_rule (d : Database) : Prop :=
  forall u, In u (users d) -> username_rule (User.username u) = true.

Definition task_row_valid (t : Task.t) : Prop :=
  Task.title t <> EmptyString
  /\ (len (Task.title t) <= 200)%Z
  /\ (len (Task.description t) <= 200)%Z
  /\ strip (Task.title t) = Task.title t
  /\ strip (Task.description t) = Task.description t.

Definition tasks_valid (d : Database) : Prop :=
  forall t, In t (tasks d) -> task_row_valid t.

(** The session names a stored user, under that user's username. *)
Definition session_valid (d : Database) (s : Session.t) : Prop :=
  forall u, Session.user_id s = Some u ->
    exists user, In user (users d) /\ User.id user = u
                 /\ Session.username s = Some (User.username user).

Definition owners_exist (d : Database) : Prop :=
  forall t, In t (tasks d) -> In (Task.user_id t) (user_ids d).

Definition world_sound (w : World) : Prop :=
  owners_exist (w_db w) /\ forall b, session_valid (w_db w) (w_cookies w b).

(** *** Observations on the dashboard *)

Definition rendered_counts (o : Outcome) : option (Z * Z * Z) :=
  match o with
  | Return {| body := Render (dashboard_html _ _ total done todo _) |} _ =>
      Some (total, done, todo)
  | _ => None
  end.

Definition status_of (x : option (Response * App)) : option Z :=
  match x with
  | Some (r, _) => Some (status r)
  | None => None
  end.

(** ** A sample session of two browsers *)

Module Tour.

Definition go (b : nat) (r : Route) (m : Method) (f : list (string * string)) : Visit :=
  {| v_browser := b; v_route := r; v_request := Demo.request m f [] |}.

Definition visits : list Visit :=
  [ go 0 route_register POST
      [("username", "alice_1"); ("password", "Passw0rd!");
       ("confirm_password", "Passw0rd!")];
    go 0 route_login POST [("username", "alice_1"); ("password", "Passw0rd!")];
    go 0 route_add_task POST [("title", " Buy milk "); ("description", "2 l")];
    go 1 route_register POST
      [("username", "bob_22"); ("password", "S3cretWord");
       ("confirm_password", "S3cretWord")];
    go 1 route_login POST [("username", "bob_22"); ("password", "S3cretWord")];
    go 1 (route_toggle_task 1) POST [] ].

Definition world : World := run initial visits.

(** A request whose write to the database fails. *)
Definition failing (m : Method) (f : list (string * string)) : Request :=
  {| method := m; form := f; args := []; utcnow := Demo.clock;
     commit_ok := false; salt := "na" |}.


End Tour.

(** * Properties *)

(** ** Strings and validators *)

Ltac each_char c :=
  destruct c as [[|] [|] [|] [|] [|] [|] [|] [|]]; vm_compute; try congruence; auto.

Lemma len_nonneg (s : string) : (0 <= len s)%Z.
Proof. unfold len; lia. Qed.

Lemma len_String (c : ascii) (s : string) : len (String c s) = (len s + 1)%Z.
Proof. unfold len; simpl String.length; lia. Qed.

Lemma falsy_len (s : string) : falsy s = true <-> len s = 0%Z.
Proof.
  destruct s as [|c s]; simpl; split; intros E; try reflexivity; discriminate.
Qed.

Lemma falsy_empty (s : string) : falsy s = true <-> s = EmptyString.
Proof. destruct s; simpl; split; congruence. Qed.

Lemma word_not_space (c : ascii) : is_word c = true -> isspace c = false.
Proof. each_char c. Qed.

Lemma word_not_newline (c : ascii) : is_word c = true -> (code c =? 10)%nat = false.
Proof. each_char c. Qed.

Lemma lstrip_word (s : string) : all_chars is_word s = true -> lstrip s = s.
Proof.
  destruct s as [|c s]; simpl; [reflexivity|].
  intros H. apply andb_prop in H as [Hc _].
  now rewrite (word_not_space c Hc).
Qed.

Lemma rstrip_word (s : string) : all_chars is_word s = true -> rstrip s = s.
Proof.
  induction s as [|c s IH]; simpl; [reflexivity|].
  intros H. apply andb_prop in H as [Hc Hs].
  rewrite (IH Hs), (word_not_space c Hc). now destruct s.
Qed.

Lemma strip_word (s : string) : all_chars is_word s = true -> strip s = s.
Proof.
  intros H. unfold strip. rewrite (lstrip_word s H). now apply rstrip_word.
Qed.

Lemma word_tail_all (s : string) : all_chars is_word s = true -> word_tail s = true.
Proof.
  induction s as [|c s IH]; simpl; [reflexivity|].
  intros H. apply andb_prop in H as [Hc Hs]. rewrite Hc. now apply IH.
Qed.

(** What [[a-zA-Z0-9_]+$] accepts after the first character: word
    characters only, possibly followed by one final newline. *)
Lemma word_tail_spec (s : string) :
  word_tail s = true <->
  all_chars is_word s = true \/
  exists w, all_chars is_word w = true /\ s = w ++ String LF EmptyString.
Proof.
  induction s as [|c s IH]; simpl.
  - split; auto.
  - destruct (is_word c) eqn:Hc; simpl.
    + rewrite IH. split; intros [H|(w & Hw & E)]; auto; right.
      * exists (String c w). simpl. rewrite Hc, Hw, E. auto.
      * destruct w as [|d w]; simpl in E.
        -- inversion E; subst. discriminate.
        -- inversion E; subst. simpl in Hw. apply andb_prop in Hw as [_ Hw].
           exists w. auto.
    + split.
      * intros H. apply andb_prop in H as [Hn Hs]. right.
        exists EmptyString. split; [reflexivity|]. simpl.
        apply falsy_empty in Hs. subst s.
        apply Nat.eqb_eq in Hn. unfold code in Hn.
        rewrite <- (ascii_nat_embedding c), Hn. reflexivity.
      * intros [H|(w & Hw & E)]; [discriminate|].
        destruct w as [|d w]; simpl in E; inversion E; subst.
        -- reflexivity.
        -- simpl in Hw. rewrite Hc in Hw. discriminate.
Qed.

Lemma validate_password_rule (password : string) :
  fst (validate_password password) = password_rule password.
Proof.
  unfold validate_password, password_rule.
  destruct (len password <? 8)%Z eqn:L.
  - apply Z.ltb_lt in L. simpl.
    replace (8 <=? len password)%Z with false by (symmetry; apply Z.leb_gt; lia).
    reflexivity.
  - apply Z.ltb_ge in L.
    replace (8 <=? len password)%Z with true by (symmetry; apply Z.leb_le; lia).
    destruct (re_search is_upper password), (re_search is_lower password),
      (re_search is_digit password); reflexivity.
Qed.

Lemma validate_username_rule (username : string) :
  username_rule username = true ->
  validate_username username = (true, "Username is valid").
Proof.
  unfold username_rule, validate_username. intros H.
  apply andb_prop in H as [H Hw]. apply andb_prop in H as [H3 H20].
  apply Z.leb_le in H3, H20.
  replace (len username <? 3)%Z with false by (symmetry; apply Z.ltb_ge; lia).
  replace (len username >? 20)%Z with false by (symmetry; rewrite Z.gtb_ltb; apply Z.ltb_ge; lia).
  destruct username as [|c s]; [unfold len in H3; simpl in H3; lia|].
  simpl in Hw |- *. apply andb_prop in Hw as [Hc Hs].
  now rewrite Hc, (word_tail_all s Hs).
Qed.

(** The inputs [validate_username] passes: those of the rule table and,
    because [$] also matches before a final newline, a word of 2 to 19
    characters followed by a newline. *)
Lemma validate_username_passes (username : string) :
  fst (validate_username username) = true <->
  username_rule username = true \/
  exists w, w <> EmptyString /\ all_chars is_word w = true /\
            username = w ++ String LF EmptyString /\
            (3 <= len username <= 20)%Z.
Proof.
  unfold validate_username, username_rule.
  destruct (len username <? 3)%Z eqn:L3.
  { apply Z.ltb_lt in L3. simpl. split; [discriminate|].
    intros [H|(w & _ & _ & _ & H)]; [|lia].
    apply andb_prop in H as [H _]. apply andb_prop in H as [H _].
    apply Z.leb_le in H. lia. }
  apply Z.ltb_ge in L3.
  destruct (len username >? 20)%Z eqn:L20.
  { rewrite Z.gtb_ltb in L20. apply Z.ltb_lt in L20. simpl. split; [discriminate|].
    intros [H|(w & _ & _ & _ & H)]; [|lia].
    apply andb_prop in H as [H _]. apply andb_prop in H as [_ H].
    apply Z.leb_le in H. lia. }
  rewrite Z.gtb_ltb in L20. apply Z.ltb_ge in L20.
  replace (3 <=? len username)%Z with true by (symmetry; apply Z.leb_le; lia).
  replace (len username <=? 20)%Z with true by (symmetry; apply Z.leb_le; lia).
  simpl andb.
  destruct username as [|c s]; [unfold len in L3; simpl in L3; lia|].
  simpl re_match_word_line. simpl all_chars.
  destruct (is_word c) eqn:Hc; cbn [andb negb fst].
  - destruct (word_tail s) eqn:Ht; cbn [andb negb fst].
    + split; [intros _|reflexivity].
      apply word_tail_spec in Ht as [H|(w & Hw & E)]; [now left|right].
      exists (String c w). subst s. cbn [all_chars append]. rewrite Hc, Hw.
      repeat split; try discriminate; lia.
    + split; [discriminate|].
      intros [H|(w & Hn & Hw & E & _)].
      * rewrite (word_tail_all s H) in Ht. discriminate.
      * destruct w as [|d w]; [congruence|]. simpl in E, Hw. inversion E; subst.
        apply andb_prop in Hw as [_ Hw].
        assert (word_tail (w ++ String LF EmptyString) = true) as Ht'
            by (apply word_tail_spec; right; eauto).
        congruence.
  - split; [discriminate|].
    intros [H|(w & Hn & Hw & E & _)]; [discriminate|].
    destruct w as [|d w]; [congruence|]. simpl in E, Hw. inversion E; subst.
    rewrite Hc in Hw. discriminate.
Qed.

(** C8.  [validate_password] passes exactly the passwords of the rule
    table, but [validate_username] does not pass exactly the usernames of
    the rule table: it accepts the three-character string made of "ab" and
    a newline, which holds a character that is neither a letter, a digit
    nor an underscore.  The pattern ends in [$], which also matches before
    a final newline. *)
Theorem validate_username_accepts_trailing_newline :
  validate_username (String "a" (String "b" (String LF EmptyString)))
    = (true, "Username is valid")
  /\ username_rule (String "a" (String "b" (String LF EmptyString))) = false
  /\ all_chars is_word (String "a" (String "b" (String LF EmptyString))) = false
  /\ forall password, fst (validate_password password) = password_rule password.
Proof.
  repeat split; try reflexivity. intros p. apply validate_password_rule.
Qed.

(** ** The authorization gate and the ownership gate *)

Lemma login_required_pass (f : View) (st : App) (rq : Request) (u : Z) :
  Session.user_id (session st) = Some u -> login_required f st rq = f st rq.
Proof.
  intros H. unfold login_required, Session.has_user_id. now rewrite H.
Qed.

Lemma login_required_block (f : View) (st : App) (rq : Request) :
  Session.user_id (session st) = None ->
  login_required f st rq =
  Return (redirect ep_login [flash "Please log in to access this page." "error"]) st.
Proof.
  intros H. unfold login_required, Session.has_user_id. now rewrite H.
Qed.

Section Gates.

Variables (st : App) (rq : Request) (u : Z).
Hypothesis Hsession : Session.user_id (session st) = Some u.

Lemma edit_task_missing (task_id : Z) :
  get_or_404 (tasks (db st)) task_id = None ->
  edit_task task_id st rq = Raise (get_or_404_error task_id).
Proof.
  intros H. unfold edit_task. rewrite (login_required_pass _ _ _ _ Hsession).
  now rewrite H.
Qed.

Lemma toggle_task_missing (task_id : Z) :
  get_or_404 (tasks (db st)) task_id = None ->
  toggle_task task_id st rq = Raise (get_or_404_error task_id).
Proof.
  intros H. unfold toggle_task. rewrite (login_required_pass _ _ _ _ Hsession).
  now rewrite H.
Qed.

Lemma delete_task_missing (task_id : Z) :
  get_or_404 (tasks (db st)) task_id = None ->
  delete_task task_id st rq = Raise (get_or_404_error task_id).
Proof.
  intros H. unfold delete_task. rewrite (login_required_pass _ _ _ _ Hsession).
  now rewrite H.
Qed.

Variables (task_id : Z) (t : Task.t).
Hypothesis Hrow : get_or_404 (tasks (db st)) task_id = Some t.
Hypothesis Hforeign : Task.user_id t <> u.

Lemma edit_task_foreign :
  edit_task task_id st rq = Return (redirect ep_dashboard (foreign_notice "edit")) st.
Proof.
  unfold edit_task. rewrite (login_required_pass _ _ _ _ Hsession), Hrow, Hsession.
  apply Z.eqb_neq in Hforeign. now rewrite Hforeign.
Qed.

Lemma toggle_task_foreign :
  toggle_task task_id st rq = Return (redirect ep_dashboard (foreign_notice "modify")) st.
Proof.
  unfold toggle_task. rewrite (login_required_pass _ _ _ _ Hsession), Hrow, Hsession.
  apply Z.eqb_neq in Hforeign. now rewrite Hforeign.
Qed.

Lemma delete_task_foreign :
  delete_task task_id st rq = Return (redirect ep_dashboard (foreign_notice "delete")) st.
Proof.
  unfold delete_task. rewrite (login_required_pass _ _ _ _ Hsession), Hrow, Hsession.
  apply Z.eqb_neq in Hforeign. now rewrite Hforeign.
Qed.

End Gates.

(** C1.  In a session authenticated as [u], a request to [edit_task],
    [toggle_task] or [delete_task] that names a task owned by another
    user is answered by a redirect to the dashboard with one error notice
    (status 302, no error page), and the application state, hence the
    whole row of that task, is what it was before the request. *)
Theorem foreign_task_refused (st : App) (rq : Request) (u task_id : Z) (t : Task.t) :
  Session.user_id (session st) = Some u ->
  get_or_404 (tasks (db st)) task_id = Some t ->
  Task.user_id t <> u ->
  serve (edit_task task_id) st rq
    = (redirect ep_dashboard [flash "You can only edit your own tasks." "error"], st)
  /\ serve (toggle_task task_id) st rq
    = (redirect ep_dashboard [flash "You can only modify your own tasks." "error"], st)
  /\ serve (delete_task task_id) st rq
    = (redirect ep_dashboard [flash "You can only delete your own tasks." "error"], st)
  /\ forall v, In v [edit_task; toggle_task; delete_task] ->
       let st' := snd (serve (v task_id) st rq) in
       tasks (db st') = tasks (db st) /\
       get_or_404 (tasks (db st')) task_id = Some t.
Proof.
  intros Hs Hr Hf.
  assert (E := edit_task_foreign st rq u Hs task_id t Hr Hf).
  assert (T := toggle_task_foreign st rq u Hs task_id t Hr Hf).
  assert (D := delete_task_foreign st rq u Hs task_id t Hr Hf).
  unfold serve. rewrite E, T, D. repeat split; try reflexivity.
  - destruct H as [<-|[<-|[<-|[]]]]; [rewrite E|rewrite T|rewrite D]; reflexivity.
  - destruct H as [<-|[<-|[<-|[]]]]; [rewrite E|rewrite T|rewrite D]; exact Hr.
Qed.

Lemma foreign_task_refused_witness :
  serve (toggle_task 3) Demo.as_alice (Demo.post [])
    = (redirect ep_dashboard [flash "You can only modify your own tasks." "error"],
       Demo.as_alice).
Proof.
  apply (foreign_task_refused Demo.as_alice (Demo.post []) 1 3 Demo.bobs);
    [reflexivity | reflexivity | vm_compute; discriminate].
Defined.

(** C2, as stated, fails: for a session authenticated as user 1, task 3
    exists and belongs to user 2 while no task 99 exists, and each of the
    three routes answers the two requests differently (a redirect with a
    notice against the not-found page). *)
Lemma missing_and_foreign_task_differ :
  fst (serve (edit_task 99) Demo.as_alice (Demo.post []))
    <> fst (serve (edit_task 3) Demo.as_alice (Demo.post []))
  /\ fst (serve (toggle_task 99) Demo.as_alice (Demo.post []))
    <> fst (serve (toggle_task 3) Demo.as_alice (Demo.post []))
  /\ fst (serve (delete_task 99) Demo.as_alice (Demo.post []))
    <> fst (serve (delete_task 3) Demo.as_alice (Demo.post [])).
Proof.
  repeat split; vm_compute; discriminate.
Qed.

(** C2, amended.  For every authenticated session and each of the routes
    [edit_task], [toggle_task] and [delete_task], a request naming a task
    id that does not exist is answered without notice by the not-found
    page with status 404, or, when the id is not a 64-bit integer, by the
    server-error page with status 500; a request naming an existing task
    of another user is answered by a redirect to the dashboard with an
    error notice.  Neither changes the state, and the two responses
    differ. *)
Theorem missing_task_404_foreign_task_redirect
    (st : App) (rq : Request) (u missing foreign : Z) (t : Task.t) :
  Session.user_id (session st) = Some u ->
  get_or_404 (tasks (db st)) missing = None ->
  get_or_404 (tasks (db st)) foreign = Some t ->
  Task.user_id t <> u ->
  forall v, In v [edit_task; toggle_task; delete_task] ->
    serve (v missing) st rq
      = (if sqlite_integer missing then not_found_error else internal_error, st)
    /\ (exists notice,
          serve (v foreign) st rq = (redirect ep_dashboard [flash notice "error"], st))
    /\ status (fst (serve (v missing) st rq))
       = (if sqlite_integer missing then 404 else 500)%Z
    /\ flashes (fst (serve (v missing) st rq)) = []
    /\ status (fst (serve (v foreign) st rq)) = 302%Z
    /\ fst (serve (v missing) st rq) <> fst (serve (v foreign) st rq).
Proof.
  intros Hs Hm Hr Hf v Hv. unfold serve.
  destruct Hv as [<-|[<-|[<-|[]]]].
  - rewrite (edit_task_missing st rq u Hs missing Hm),
      (edit_task_foreign st rq u Hs foreign t Hr Hf).
    unfold get_or_404_error. destruct (sqlite_integer missing);
      repeat split; try reflexivity; try (eexists; reflexivity); discriminate.
  - rewrite (toggle_task_missing st rq u Hs missing Hm),
      (toggle_task_foreign st rq u Hs foreign t Hr Hf).
    unfold get_or_404_error. destruct (sqlite_integer missing);
      repeat split; try reflexivity; try (eexists; reflexivity); discriminate.
  - rewrite (delete_task_missing st rq u Hs missing Hm),
      (delete_task_foreign st rq u Hs foreign t Hr Hf).
    unfold get_or_404_error. destruct (sqlite_integer missing);
      repeat split; try reflexivity; try (eexists; reflexivity); discriminate.
Qed.

Lemma missing_task_404_foreign_task_redirect_witness :
  serve (delete_task 99) Demo.as_alice (Demo.post []) = (not_found_error, Demo.as_alice)
  /\ serve (delete_task (2 ^ 63)) Demo.as_alice (Demo.post [])
     = (internal_error, Demo.as_alice)
  /\ status (fst (serve (delete_task 3) Demo.as_alice (Demo.post []))) = 302%Z.
Proof.
  assert (In delete_task [edit_task; toggle_task; delete_task]) as Hv
      by (simpl; auto).
  destruct (missing_task_404_foreign_task_redirect
              Demo.as_alice (Demo.post []) 1 99 3 Demo.bobs
              eq_refl eq_refl eq_refl ltac:(vm_compute; discriminate)
              delete_task Hv) as (M & _ & _ & _ & F & _).
  destruct (missing_task_404_foreign_task_redirect
              Demo.as_alice (Demo.post []) 1 (2 ^ 63) 3 Demo.bobs
              eq_refl eq_refl eq_refl ltac:(vm_compute; discriminate)
              delete_task Hv) as (M' & _).
  split; [exact M | split; [exact M' | exact F]].
Defined.

(** ** The dashboard listing *)

Lemma insert_desc_perm (t : Task.t) (l : list Task.t) :
  Permutation (insert_desc t l) (t :: l).
Proof.
  induction l as [|x l IH]; simpl; [reflexivity|].
  destruct (Task.created_at x <=? Task.created_at t)%Z; [reflexivity|].
  rewrite IH. apply perm_swap.
Qed.

Lemma order_by_perm (l : list Task.t) :
  Permutation (order_by_created_at_desc l) l.
Proof.
  induction l as [|x l IH]; simpl; [reflexivity|].
  rewrite insert_desc_perm. now apply perm_skip.
Qed.

Lemma insert_desc_hd (t a : Task.t) (l : list Task.t) :
  newer_first a t -> HdRel newer_first a l -> HdRel newer_first a (insert_desc t l).
Proof.
  intros Hat Hl. destruct l as [|x l]; simpl; [now constructor|].
  destruct (Task.created_at x <=? Task.created_at t)%Z; constructor; auto.
  now inversion Hl.
Qed.

Lemma insert_desc_sorted (t : Task.t) (l : list Task.t) :
  Sorted newer_first l -> Sorted newer_first (insert_desc t l).
Proof.
  induction 1 as [|x l Hs IH Hh]; simpl.
  - repeat constructor.
  - destruct (Task.created_at x <=? Task.created_at t)%Z eqn:C.
    + apply Z.leb_le in C. constructor; [now constructor|].
      constructor. exact C.
    + apply Z.leb_gt in C. constructor; [exact IH|].
      apply insert_desc_hd; [unfold newer_first; lia | exact Hh].
Qed.

Lemma order_by_sorted (l : list Task.t) :
  StronglySorted newer_first (order_by_created_at_desc l).
Proof.
  apply Sorted_StronglySorted.
  - intros a b c Hab Hbc. unfold newer_first in *. lia.
  - induction l as [|x l IH]; simpl; [constructor|].
    now apply insert_desc_sorted.
Qed.

Lemma filter_filter {A : Type} (f g : A -> bool) (l : list A) :
  filter f (filter g l) = filter (fun x => g x && f x) l.
Proof.
  induction l as [|x l IH]; simpl; [reflexivity|].
  destruct (g x); simpl; [destruct (f x)|]; now rewrite IH.
Qed.

Lemma filter_agree {A : Type} (f g : A -> bool) (l : list A) :
  (forall x, f x = g x) -> filter f l = filter g l.
Proof. intros H. apply filter_ext. exact H. Qed.

(** One step of [%]: it matches the empty run, or swallows a character. *)
Lemma compare_percent (p s : string) :
  pattern_compare (String percent p) s =
  pattern_compare p s || match s with
                         | EmptyString => false
                         | String _ s' => pattern_compare (String percent p) s'
                         end.
Proof. destruct s; reflexivity. Qed.

Lemma compare_percent_end (s : string) :
  pattern_compare (String percent EmptyString) s = true.
Proof.
  induction s as [|c s IH]; [reflexivity|].
  rewrite compare_percent, IH. apply orb_true_r.
Qed.

Lemma compare_literal (c : ascii) (p s : string) :
  Ascii.eqb c percent = false -> Ascii.eqb c underscore = false ->
  pattern_compare (String c p) s =
  match s with
  | EmptyString => false
  | String d s' => eq_nocase c d && pattern_compare p s'
  end.
Proof.
  intros Hp Hu. simpl. rewrite Hp. destruct s; [reflexivity|]. now rewrite Hu.
Qed.

Lemma compare_prefix (q s : string) :
  no_wildcard q = true ->
  pattern_compare (q ++ String percent EmptyString) s = ci_prefix q s.
Proof.
  revert s. induction q as [|c q IH]; intros s H.
  - apply compare_percent_end.
  - simpl in H. apply andb_prop in H as [Hc Hq].
    apply negb_true_iff, orb_false_iff in Hc as [Hp Hu].
    change (String c q ++ String percent EmptyString)
      with (String c (q ++ String percent EmptyString)).
    rewrite (compare_literal c _ s Hp Hu). destruct s as [|d s]; [reflexivity|].
    simpl. now rewrite IH.
Qed.

(** Without [%] and [_] in the query, the pattern [%q%] is substring
    search that ignores the case of ASCII letters. *)
Lemma compare_ci_substring (q s : string) :
  no_wildcard q = true ->
  pattern_compare (String percent (q ++ String percent EmptyString)) s
  = ci_substring q s.
Proof.
  intros H. induction s as [|c s IH].
  - rewrite compare_percent, compare_prefix by exact H.
    destruct q; reflexivity.
  - rewrite compare_percent, compare_prefix, IH by exact H. reflexivity.
Qed.

Lemma until_nul_no_nul (s : string) : no_nul s = true -> until_nul s = s.
Proof.
  unfold no_nul. induction s as [|c s IH]; cbn [until_nul all_chars]; [reflexivity|].
  intros H. apply andb_prop in H as [Hc Hs]. apply negb_true_iff in Hc.
  now rewrite Hc, (IH Hs).
Qed.

Lemma no_nul_app (s s' : string) :
  no_nul s = true -> no_nul s' = true -> no_nul (s ++ s') = true.
Proof.
  unfold no_nul. induction s as [|c s IH]; cbn [append all_chars]; [auto|].
  intros H H'. apply andb_prop in H as [Hc Hs]. now rewrite Hc, (IH Hs H').
Qed.

Lemma utf8_bytes_pattern (q : string) :
  utf8_bytes (String percent (q ++ String percent EmptyString)) = (utf8_bytes q + 2)%Z.
Proof.
  change (utf8_bytes (String percent (q ++ String percent EmptyString)))
    with (1 + utf8_bytes (q ++ String percent EmptyString))%Z.
  induction q as [|c q IH]; [reflexivity|].
  change (utf8_bytes (String c q ++ String percent EmptyString))
    with ((if (code c <? 128)%nat then 1 else 2)
          + utf8_bytes (q ++ String percent EmptyString))%Z.
  change (utf8_bytes (String c q))
    with ((if (code c <? 128)%nat then 1 else 2) + utf8_bytes q)%Z.
  lia.
Qed.

(** [contains] on a pattern within the limit, and on one beyond it. *)
Lemma contains_fits (q s : string) :
  pattern_fits q = true -> contains s q = Some (like_matches q s).
Proof.
  unfold pattern_fits, contains, like, like_matches. intros H.
  apply Z.leb_le in H. rewrite utf8_bytes_pattern.
  replace (utf8_bytes q + 2 >? 50000)%Z with false
    by (symmetry; rewrite Z.gtb_ltb; apply Z.ltb_ge; lia).
  reflexivity.
Qed.

Lemma contains_too_long (q s : string) :
  pattern_fits q = false -> contains s q = None.
Proof.
  unfold pattern_fits, contains, like. intros H.
  apply Z.leb_gt in H. rewrite utf8_bytes_pattern.
  replace (utf8_bytes q + 2 >? 50000)%Z with true
    by (symmetry; rewrite Z.gtb_ltb; apply Z.ltb_lt; lia).
  reflexivity.
Qed.

Lemma like_matches_ci_substring (q s : string) :
  no_wildcard q = true -> no_nul q = true ->
  like_matches q s = ci_substring q (until_nul s).
Proof.
  intros Hw Hn. unfold like_matches.
  rewrite (until_nul_no_nul (String percent (q ++ String percent EmptyString))).
  - now apply compare_ci_substring.
  - change (no_nul (String percent EmptyString ++ (q ++ String percent EmptyString)) = true).
    apply no_nul_app; [reflexivity|]. now apply no_nul_app.
Qed.

Lemma select_where_total (test : Task.t -> option bool) (f : Task.t -> bool)
    (rows : list Task.t) :
  (forall x, test x = Some (f x)) -> select_where test rows = Some (filter f rows).
Proof.
  intros H. induction rows as [|x rows IH]; simpl; [reflexivity|].
  rewrite H, IH. now destruct (f x).
Qed.

Lemma select_where_raises (test : Task.t -> option bool) (rows : list Task.t) :
  (forall x, test x = None) -> rows <> [] -> select_where test rows = None.
Proof.
  intros H Hr. destruct rows as [|x rows]; [congruence|]. simpl. now rewrite H.
Qed.

Lemma user_get_id (us : list User.t) (u : Z) (user : User.t) :
  user_get us u = Some user -> User.id user = u /\ In user us.
Proof.
  intros H. apply find_some in H as [Hin Hid]. apply Z.eqb_eq in Hid. auto.
Qed.

(** The page [dashboard] renders for a stored user, counters included,
    when the search is empty, or its pattern is within the limit, or the
    user has no task for the LIKE to be tested on. *)
Lemma dashboard_renders (st : App) (rq : Request) (u : Z) (user : User.t) :
  Session.user_id (session st) = Some u ->
  user_get (users (db st)) u = Some user ->
  let q := strip (get (args rq) "search" EmptyString) in
  falsy q = true \/ pattern_fits q = true \/ tasks_of (tasks (db st)) u = [] ->
  let listing :=
    order_by_created_at_desc
      (filter (fun t => (Task.user_id t =? u)%Z
                        && (falsy q || like_matches q (Task.title t)))
         (tasks (db st))) in
  dashboard st rq =
  Return (render_template
            (dashboard_html user listing
               (Z.of_nat (length listing))
               (Z.of_nat (length (filter Task.completed listing)))
               (Z.of_nat (length listing)
                - Z.of_nat (length (filter Task.completed listing)))
               q) []) st.
Proof.
  intros Hs Hu q Hq listing. unfold dashboard.
  rewrite (login_required_pass _ _ _ _ Hs), Hs, Hu.
  destruct (user_get_id _ _ _ Hu) as [Hid _]. rewrite Hid.
  fold q. unfold tasks_of in *. subst listing.
  destruct (falsy q) eqn:Fq; cbn [negb orb].
  - rewrite (filter_agree
               (fun t => (Task.user_id t =? u)%Z && true)
               (fun t => (Task.user_id t =? u)%Z)
               (tasks (db st)))
      by (intros x; apply andb_true_r).
    now rewrite (Permutation_length (order_by_perm _)).
  - destruct Hq as [Hq|[Hq|Hq]]; [discriminate| |].
    + rewrite (select_where_total _ (fun t => like_matches q (Task.title t)))
        by (intros x; now apply contains_fits).
      now rewrite filter_filter.
    + rewrite <- filter_filter, Hq. reflexivity.
Qed.

(** Beyond the limit the first row tested raises, and the view with it. *)
Lemma dashboard_raises (st : App) (rq : Request) (u : Z) (user : User.t) :
  Session.user_id (session st) = Some u ->
  user_get (users (db st)) u = Some user ->
  let q := strip (get (args rq) "search" EmptyString) in
  q <> EmptyString ->
  pattern_fits q = false ->
  tasks_of (tasks (db st)) u <> [] ->
  dashboard st rq = Raise InternalServerError.
Proof.
  intros Hs Hu q Hq Hf Ht. unfold dashboard.
  rewrite (login_required_pass _ _ _ _ Hs), Hs, Hu.
  destruct (user_get_id _ _ _ Hu) as [Hid _]. rewrite Hid. fold q.
  destruct (falsy q) eqn:Fq; [apply falsy_empty in Fq; contradiction|].
  cbn [negb]. rewrite select_where_raises; [reflexivity | | exact Ht].
  intros x. now apply contains_too_long.
Qed.

(** What [dashboard] lists when it renders. *)
Lemma dashboard_returns (st : App) (rq : Request) (u : Z) (user : User.t) :
  Session.user_id (session st) = Some u ->
  user_get (users (db st)) u = Some user ->
  let q := strip (get (args rq) "search" EmptyString) in
  falsy q = true \/ pattern_fits q = true \/ tasks_of (tasks (db st)) u = [] ->
  rendered_tasks (dashboard st rq) =
  Some (order_by_created_at_desc
          (filter (fun t => (Task.user_id t =? u)%Z
                            && (falsy q || like_matches q (Task.title t)))
             (tasks (db st))))
  /\ exists total completed incomplete,
       dashboard st rq =
       Return (render_template
                 (dashboard_html user
                    (order_by_created_at_desc
                       (filter (fun t => (Task.user_id t =? u)%Z
                                         && (falsy q || like_matches q (Task.title t)))
                          (tasks (db st))))
                    total completed incomplete q) []) st.
Proof.
  intros Hs Hu q Hq. rewrite (dashboard_renders st rq u user Hs Hu Hq).
  split; [reflexivity|]. repeat eexists.
Qed.

(** C3, as stated, fails.  Searching for an underscore lists both tasks
    of user 1, none of whose titles holds an underscore, because LIKE
    reads [_] as "any one character"; searching for "a" followed by a
    space lists the task titled "ba", which does not hold that query,
    because the query is stripped before it is used; searching for the
    NUL character lists both tasks, because LIKE reads its pattern only
    up to the first NUL; and a query of 49999 letters lists nothing and
    raises instead, because its pattern exceeds the limit of SQLite. *)
Lemma search_is_not_substring_of_raw_query :
  rendered_tasks (dashboard Demo.as_alice (Demo.search "_"))
    = Some [Demo.letter; Demo.milk]
  /\ ci_substring "_" (Task.title Demo.milk) = false
  /\ ci_substring "_" (Task.title Demo.letter) = false
  /\ rendered_tasks (dashboard Demo.as_alice (Demo.search "a "))
    = Some [Demo.letter]
  /\ ci_substring "a " (Task.title Demo.letter) = false
  /\ rendered_tasks
       (dashboard Demo.as_alice (Demo.search (String (ascii_of_nat 0) EmptyString)))
    = Some [Demo.letter; Demo.milk]
  /\ ci_substring (String (ascii_of_nat 0) EmptyString) (Task.title Demo.milk) = false
  /\ dashboard Demo.as_alice (Demo.search Demo.long_query) = Raise InternalServerError.
Proof. repeat split; vm_compute; reflexivity. Qed.

(** C3, amended.  Let [q] be the search string with surrounding
    whitespace stripped, and suppose that [q] holds neither [%], [_] nor
    a NUL character and that the pattern made of [q] between two [%] has
    at most 50000 bytes.  For every user found in the store, the
    dashboard lists exactly that user's tasks whose title, read up to its
    first NUL character if it has one, holds [q] as a substring, the case
    of ASCII letters ignored, ordered newest-created-first; when [q] is
    empty (no query, or whitespace only) these are all of the user's
    tasks, in that order. *)
Theorem dashboard_lists_matching_tasks_newest_first
    (st : App) (rq : Request) (u : Z) (user : User.t) :
  Session.user_id (session st) = Some u ->
  user_get (users (db st)) u = Some user ->
  let q := strip (get (args rq) "search" EmptyString) in
  no_wildcard q = true ->
  no_nul q = true ->
  pattern_fits q = true ->
  exists listing total completed incomplete,
    dashboard st rq =
      Return (render_template
                (dashboard_html user listing total completed incomplete q) []) st
    /\ Permutation listing
         (filter (fun t => (Task.user_id t =? User.id user)%Z
                           && ci_substring q (until_nul (Task.title t)))
            (tasks (db st)))
    /\ (forall t, In t listing <->
                  In t (tasks (db st)) /\ Task.user_id t = User.id user
                  /\ ci_substring q (until_nul (Task.title t)) = true)
    /\ (forall t, no_nul (Task.title t) = true ->
                  until_nul (Task.title t) = Task.title t)
    /\ StronglySorted newer_first listing
    /\ (q = EmptyString ->
        Permutation listing (tasks_of (tasks (db st)) (User.id user))).
Proof.
  intros Hs Hu q Hq Hn Hf.
  destruct (dashboard_returns st rq u user Hs Hu (or_intror (or_introl Hf)))
    as [_ (total & completed & incomplete & E)].
  fold q in E. destruct (user_get_id _ _ _ Hu) as [Hid _]. rewrite Hid.
  assert (forall t, ((Task.user_id t =? u)%Z && (falsy q || like_matches q (Task.title t)))
                    = ((Task.user_id t =? u)%Z
                       && ci_substring q (until_nul (Task.title t)))) as A.
  { intros t. rewrite (like_matches_ci_substring q _ Hq Hn).
    destruct (falsy q) eqn:F; [|reflexivity].
    apply falsy_empty in F. rewrite F. now destruct (until_nul (Task.title t)). }
  rewrite (filter_agree _ _ (tasks (db st)) A) in E.
  eexists _, total, completed, incomplete. split; [exact E|].
  split; [apply order_by_perm|]. split; [|split; [|split]].
  - intros t. split.
    + intros H. apply (Permutation_in _ (order_by_perm _)) in H.
      apply filter_In in H as [Hin Hb]. apply andb_prop in Hb as [H1 H2].
      apply Z.eqb_eq in H1. auto.
    + intros (Hin & H1 & H2).
      apply (Permutation_in _ (Permutation_sym (order_by_perm _))).
      apply filter_In. split; [exact Hin|].
      apply andb_true_intro. split; [now apply Z.eqb_eq | exact H2].
  - intros t. apply until_nul_no_nul.
  - apply order_by_sorted.
  - intros Eq. rewrite order_by_perm. unfold tasks_of.
    rewrite (filter_agree
               (fun t => (Task.user_id t =? u)%Z
                         && ci_substring q (until_nul (Task.title t)))
               (fun t => (Task.user_id t =? u)%Z) (tasks (db st))); [reflexivity|].
    intros t. rewrite Eq. destruct (until_nul (Task.title t)); simpl; apply andb_true_r.
Qed.

Lemma dashboard_lists_matching_tasks_newest_first_witness :
  exists listing total completed incomplete,
    dashboard Demo.as_alice (Demo.search " MILK ") =
      Return (render_template
                (dashboard_html Demo.alice listing total completed incomplete "MILK") [])
             Demo.as_alice
    /\ (forall t, In t listing <->
                  In t (tasks (db Demo.as_alice)) /\ Task.user_id t = 1%Z
                  /\ ci_substring "MILK" (until_nul (Task.title t)) = true).
Proof.
  destruct (dashboard_lists_matching_tasks_newest_first
              Demo.as_alice (Demo.search " MILK ") 1 Demo.alice
              eq_refl eq_refl eq_refl eq_refl eq_refl)
    as (listing & total & completed & incomplete & E & _ & M & _).
  exists listing, total, completed, incomplete. split; [exact E | exact M].
Defined.

(** ** Toggling a task *)

Lemma get_or_404_id (ts : list Task.t) (task_id : Z) (t : Task.t) :
  get_or_404 ts task_id = Some t -> Task.id t = task_id /\ In t ts.
Proof.
  unfold get_or_404. destruct (sqlite_integer task_id); [|discriminate].
  intros H. apply find_some in H as [Hin Hid]. apply Z.eqb_eq in Hid. auto.
Qed.

Lemma get_or_404_in_range (ts : list Task.t) (task_id : Z) (t : Task.t) :
  get_or_404 ts task_id = Some t -> sqlite_integer task_id = true.
Proof.
  unfold get_or_404. now destruct (sqlite_integer task_id).
Qed.

(** After the UPDATE of a row, a lookup by its key returns the new row. *)
Lemma get_or_404_updated (ts : list Task.t) (t t' : Task.t) :
  get_or_404 ts (Task.id t') = Some t ->
  get_or_404 (map (fun x => if (Task.id x =? Task.id t')%Z then t' else x) ts)
    (Task.id t') = Some t'.
Proof.
  unfold get_or_404. destruct (sqlite_integer (Task.id t')); [|discriminate].
  induction ts as [|x ts IH]; simpl; [discriminate|].
  destruct (Task.id x =? Task.id t')%Z eqn:E.
  - intros _. now rewrite Z.eqb_refl.
  - rewrite E. exact IH.
Qed.

Lemma written_at_toggle (rq : Request) (stored : Z) :
  written_at rq stored true
  = if (utcnow rq 0 =? stored)%Z then utcnow rq 1 else utcnow rq 0.
Proof. unfold written_at. now rewrite andb_true_r. Qed.

Lemma toggle_task_own (st : App) (rq : Request) (u task_id : Z) (t : Task.t) :
  Session.user_id (session st) = Some u ->
  get_or_404 (tasks (db st)) task_id = Some t ->
  Task.user_id t = u ->
  commit_ok rq = true ->
  exists r,
    toggle_task task_id st rq = Return r (state_after (toggle_task task_id) st rq)
    /\ body r = Redirect ep_dashboard
    /\ session (state_after (toggle_task task_id) st rq) = session st
    /\ get_or_404 (tasks (db (state_after (toggle_task task_id) st rq))) task_id
       = Some (toggled t (written_at rq (Task.updated_at t) true)).
Proof.
  intros Hs Hr Ho Hc. unfold state_after, serve, toggle_task.
  rewrite (login_required_pass _ _ _ _ Hs), Hr, Hs.
  apply Z.eqb_eq in Ho. rewrite Ho. cbn [negb].
  unfold commit, update_row. rewrite Hc. cbn [snd].
  eexists. split; [reflexivity|]. split; [reflexivity|]. split; [reflexivity|].
  destruct (get_or_404_id _ _ _ Hr) as [Hid _].
  cbn [db tasks with_db with_tasks Task.id].
  rewrite written_at_toggle. subst task_id.
  exact (get_or_404_updated (tasks (db st)) t (toggled t _) Hr).
Qed.

(** C4.  For a task [t] owned by the requester and writes that
    succeed, one [toggle_task] stores the row with the completed flag
    flipped and the last-updated timestamp set to a reading of the clock
    taken while the request is served (the first reading, or the second
    when the first equals the stored timestamp), every other column kept;
    a second [toggle_task] brings the completed flag back to its original
    value and again sets the timestamp to a reading of the clock of that
    request. *)
Theorem toggle_task_flips_twice_restores
    (st : App) (rq rq' : Request) (u task_id : Z) (t : Task.t) :
  Session.user_id (session st) = Some u ->
  get_or_404 (tasks (db st)) task_id = Some t ->
  Task.user_id t = u ->
  commit_ok rq = true ->
  commit_ok rq' = true ->
  let st1 := state_after (toggle_task task_id) st rq in
  let st2 := state_after (toggle_task task_id) st1 rq' in
  exists t1 t2,
    get_or_404 (tasks (db st1)) task_id = Some t1
    /\ Task.completed t1 = negb (Task.completed t)
    /\ Task.updated_at t1
       = (if (utcnow rq 0 =? Task.updated_at t)%Z then utcnow rq 1 else utcnow rq 0)
    /\ get_or_404 (tasks (db st2)) task_id = Some t2
    /\ Task.completed t2 = Task.completed t
    /\ Task.updated_at t2
       = (if (utcnow rq' 0 =? Task.updated_at t1)%Z then utcnow rq' 1 else utcnow rq' 0)
    /\ (Task.updated_at t1 = utcnow rq 0 \/ Task.updated_at t1 = utcnow rq 1)
    /\ (Task.updated_at t2 = utcnow rq' 0 \/ Task.updated_at t2 = utcnow rq' 1)
    /\ (Task.id t1, Task.title t1, Task.description t1, Task.created_at t1, Task.user_id t1)
       = (Task.id t, Task.title t, Task.description t, Task.created_at t, Task.user_id t)
    /\ (Task.id t2, Task.title t2, Task.description t2, Task.created_at t2, Task.user_id t2)
       = (Task.id t, Task.title t, Task.description t, Task.created_at t, Task.user_id t).
Proof.
  intros Hs Hr Ho Hc Hc' st1 st2.
  destruct (toggle_task_own st rq u task_id t Hs Hr Ho Hc) as (r1 & _ & _ & Hs1 & Hr1).
  fold st1 in Hs1, Hr1. rewrite <- Hs1 in Hs.
  set (t1 := toggled t (written_at rq (Task.updated_at t) true)) in *.
  destruct (toggle_task_own st1 rq' u task_id t1 Hs Hr1 Ho Hc')
    as (r2 & _ & _ & _ & Hr2).
  fold st2 in Hr2.
  exists t1, (toggled t1 (written_at rq' (Task.updated_at t1) true)).
  split; [exact Hr1|]. split; [reflexivity|].
  split; [apply written_at_toggle|].
  split; [exact Hr2|]. split; [apply negb_involutive|].
  split; [apply written_at_toggle|].
  split; [cbn [t1 toggled Task.updated_at]; rewrite written_at_toggle;
          destruct (utcnow rq 0 =? Task.updated_at t)%Z; auto|].
  split; [cbn [toggled Task.updated_at]; rewrite written_at_toggle;
          destruct (utcnow rq' 0 =? _)%Z; auto|].
  split; reflexivity.
Qed.

Lemma toggle_task_flips_twice_restores_witness :
  exists t1 t2,
    get_or_404 (tasks (db (state_after (toggle_task 1) Demo.as_alice (Demo.post [])))) 1
      = Some t1
    /\ Task.completed t1 = true
    /\ Task.updated_at t1 = 1000%Z
    /\ get_or_404
         (tasks (db (state_after (toggle_task 1)
                       (state_after (toggle_task 1) Demo.as_alice (Demo.post []))
                       (Demo.post [])))) 1
      = Some t2
    /\ Task.completed t2 = false
    /\ Task.updated_at t2 = 1001%Z.
Proof.
  destruct (toggle_task_flips_twice_restores
              Demo.as_alice (Demo.post []) (Demo.post []) 1 1 Demo.milk
              eq_refl eq_refl eq_refl eq_refl eq_refl)
    as (t1 & t2 & H1 & C1 & U1 & H2 & C2 & U2 & _).
  exists t1, t2. repeat split; try assumption.
  rewrite U2, U1. reflexivity.
Defined.

(** ** Logging in *)

Section Login.

Context `{Hasher : PasswordHasher}.

(** The part of [login] that is reached with a username and a password:
    the lookup by username and the check of the password against the
    stored hash. *)
Lemma login_checks_credentials (st : App) (rq : Request) :
  Session.user_id (session st) = None ->
  method rq = POST ->
  let username := strip (get (form rq) "username" EmptyString) in
  let password := get (form rq) "password" EmptyString in
  username <> EmptyString ->
  password <> EmptyString ->
  login st rq =
  match user_by_username (users (db st)) username with
  | Some user =>
      if check_password user password then login_success st user
      else login_failure st
  | None => login_failure st
  end.
Proof.
  intros Hs Hm username password Hu Hp. unfold login, Session.has_user_id.
  rewrite Hs, Hm. fold username password.
  destruct username; [congruence|]. destruct password; [congruence|].
  reflexivity.
Qed.

(** C5.  For every store and every submitted username and password
    (both present), [login] answers with the user's session exactly when
    the lookup by username finds a user whose stored hash the password
    matches; an unknown username and a wrong password receive the same
    answer, the login page with the notice "Invalid username or
    password.", and leave the state as it was. *)
Theorem login_authenticates (st : App) (rq : Request) :
  Session.user_id (session st) = None ->
  method rq = POST ->
  let username := strip (get (form rq) "username" EmptyString) in
  let password := get (form rq) "password" EmptyString in
  username <> EmptyString ->
  password <> EmptyString ->
  (forall user,
      user_by_username (users (db st)) username = Some user ->
      check_password user password = true ->
      login st rq = login_success st user)
  /\ ((exists user,
          user_by_username (users (db st)) username = Some user
          /\ check_password user password = true)
      <-> Session.has_user_id (session (state_after login st rq)) = true)
  /\ (user_by_username (users (db st)) username = None ->
      login st rq = login_failure st)
  /\ (forall user,
        user_by_username (users (db st)) username = Some user ->
        check_password user password = false ->
        login st rq = login_failure st).
Proof.
  intros Hs Hm username password Hu Hp.
  assert (E := login_checks_credentials st rq Hs Hm Hu Hp).
  fold username password in E.
  assert (Session.has_user_id (session st) = false) as Hanon
      by (unfold Session.has_user_id; now rewrite Hs).
  repeat split.
  - intros user Hl Hc. now rewrite E, Hl, Hc.
  - intros (user & Hl & Hc). unfold state_after, serve.
    rewrite E, Hl, Hc. reflexivity.
  - unfold state_after, serve. rewrite E.
    destruct (user_by_username (users (db st)) username) as [user|].
    + destruct (check_password user password) eqn:Hc.
      * intros _. now exists user.
      * simpl. rewrite Hanon. discriminate.
    + simpl. rewrite Hanon. discriminate.
  - intros Hl. now rewrite E, Hl.
  - intros user Hl Hc. now rewrite E, Hl, Hc.
Qed.

End Login.

Lemma login_authenticates_witness :
  login Demo.anonymous
    (Demo.post [("username", " alice_1 "); ("password", "Passw0rd!")])
    = login_success Demo.anonymous Demo.alice
  /\ login Demo.anonymous
       (Demo.post [("username", "alice_1"); ("password", "passw0rd!")])
     = login_failure Demo.anonymous
  /\ login Demo.anonymous
       (Demo.post [("username", "carol"); ("password", "passw0rd!")])
     = login_failure Demo.anonymous.
Proof.
  split; [|split].
  - apply (login_authenticates Demo.anonymous
             (Demo.post [("username", " alice_1 "); ("password", "Passw0rd!")])
             eq_refl eq_refl ltac:(vm_compute; discriminate) ltac:(vm_compute; discriminate));
      reflexivity.
  - apply (login_authenticates Demo.anonymous
             (Demo.post [("username", "alice_1"); ("password", "passw0rd!")])
             eq_refl eq_refl ltac:(vm_compute; discriminate) ltac:(vm_compute; discriminate))
      with (user := Demo.alice); reflexivity.
  - apply (login_authenticates Demo.anonymous
             (Demo.post [("username", "carol"); ("password", "passw0rd!")])
             eq_refl eq_refl ltac:(vm_compute; discriminate) ltac:(vm_compute; discriminate));
      reflexivity.
Defined.

(** ** Registering *)

Lemma validate_password_pass (password : string) :
  password_rule password = true ->
  validate_password password = (true, "Password is valid").
Proof.
  unfold password_rule, validate_password. intros H.
  apply andb_prop in H as [H Hd]. apply andb_prop in H as [H Hl].
  apply andb_prop in H as [H8 Hu]. apply Z.leb_le in H8.
  replace (len password <? 8)%Z with false by (symmetry; apply Z.ltb_ge; lia).
  now rewrite Hu, Hl, Hd.
Qed.

Lemma rule_not_empty (username password : string) :
  username_rule username = true -> password_rule password = true ->
  falsy username = false /\ falsy password = false.
Proof.
  unfold username_rule, password_rule. intros Hu Hp.
  repeat (apply andb_prop in Hu as [Hu _]). repeat (apply andb_prop in Hp as [Hp _]).
  apply Z.leb_le in Hu, Hp.
  destruct username; [unfold len in Hu; simpl in Hu; lia|].
  destruct password; [unfold len in Hp; simpl in Hp; lia|]. auto.
Qed.

Lemma username_rule_strip (username : string) :
  username_rule username = true -> strip username = username.
Proof.
  unfold username_rule. intros H. apply andb_prop in H as [_ H].
  now apply strip_word.
Qed.

Lemma user_by_username_none (us : list User.t) (username : string) :
  user_by_username us username = None <->
  forall u, In u us -> User.username u <> username.
Proof.
  unfold user_by_username. split.
  - intros H u Hin. apply (find_none _ _ H) in Hin. now apply String.eqb_neq.
  - intros H. destruct (find _ us) as [u|] eqn:F; [|reflexivity].
    apply find_some in F as [Hin E]. apply String.eqb_eq in E.
    now destruct (H u Hin).
Qed.

Lemma user_by_username_added (us : list User.t) (u : User.t) :
  exists v, user_by_username (us ++ [u]) (User.username u) = Some v.
Proof.
  destruct (user_by_username (us ++ [u]) (User.username u)) as [v|] eqn:F; [eauto|].
  apply user_by_username_none with (u := u) in F; [congruence|].
  apply in_or_app. right. now left.
Qed.

Section Register.

Context `{Hasher : PasswordHasher}.

(** [register] on a form that passes the validation pipeline: what is
    left is the uniqueness check and the write. *)
Lemma register_validated (st : App) (rq : Request) :
  Session.user_id (session st) = None ->
  method rq = POST ->
  let username := get (form rq) "username" EmptyString in
  let password := get (form rq) "password" EmptyString in
  username_rule username = true ->
  password_rule password = true ->
  get (form rq) "confirm_password" EmptyString = password ->
  register st rq =
  match user_by_username (users (db st)) username with
  | Some _ => register_duplicate st
  | None =>
      match commit rq (add_user (db st) (new_user (db st) rq username password)) with
      | Some d => register_success (with_db st d)
      | None =>
          Return (render_template register_html
                    [flash "An error occurred during registration. Please try again."
                       "error"]) st
      end
  end.
Proof.
  intros Hs Hm username password Hu Hp Hc. unfold register, Session.has_user_id.
  rewrite Hs, Hm, Hc. fold username password.
  rewrite (username_rule_strip username Hu).
  destruct (rule_not_empty username password Hu Hp) as [Fu Fp]. rewrite Fu, Fp.
  rewrite (validate_username_rule username Hu), (validate_password_pass password Hp).
  cbn [negb]. rewrite String.eqb_refl. reflexivity.
Qed.

(** C6.  For a registration form whose username and password satisfy
    the rule table (and whose confirmation repeats the password):
    registration succeeds, adding one user row, when no stored username
    is equal to the submitted one, equality being exact, so that names
    differing in letter case do not count; it fails with the notice
    "Username already exists." and adds no row when a stored username is
    equal; and after a successful registration any further registration
    of the same username fails in that way. *)
Theorem register_succeeds_once (st : App) (rq rq2 : Request) :
  Session.user_id (session st) = None ->
  method rq = POST ->
  let username := get (form rq) "username" EmptyString in
  let password := get (form rq) "password" EmptyString in
  username_rule username = true ->
  password_rule password = true ->
  get (form rq) "confirm_password" EmptyString = password ->
  method rq2 = POST ->
  get (form rq2) "username" EmptyString = username ->
  password_rule (get (form rq2) "password" EmptyString) = true ->
  get (form rq2) "confirm_password" EmptyString = get (form rq2) "password" EmptyString ->
  ((forall u, In u (users (db st)) -> User.username u <> username) ->
   commit_ok rq = true ->
   let st1 := state_after register st rq in
   register st rq = register_success st1
   /\ users (db st1) = (users (db st) ++ [new_user (db st) rq username password])%list
   /\ register st1 rq2 = register_duplicate st1)
  /\ ((exists u, In u (users (db st)) /\ User.username u = username) ->
      register st rq = register_duplicate st).
Proof.
  intros Hs Hm username password Hu Hp Hc Hm2 Hu2 Hp2 Hc2.
  assert (E := register_validated st rq Hs Hm Hu Hp Hc). fold username password in E.
  split.
  - intros Hfresh Hcommit st1.
    apply user_by_username_none in Hfresh.
    assert (add_user (db st) (new_user (db st) rq username password)
            = Some (with_users (db st)
                      (users (db st) ++ [new_user (db st) rq username password]))) as A
        by (unfold add_user; cbn [new_user User.username]; now rewrite Hfresh).
    rewrite Hfresh in E. unfold commit in E. rewrite Hcommit, A in E.
    assert (st1 = with_db st (with_users (db st)
                     (users (db st) ++ [new_user (db st) rq username password]))) as S1
        by (unfold st1, state_after, serve; now rewrite E).
    split; [now rewrite S1|]. split; [now rewrite S1|].
    assert (Session.user_id (session st1) = None) as Hs1 by (now rewrite S1).
    rewrite <- Hu2 in Hu.
    rewrite (register_validated st1 rq2 Hs1 Hm2 Hu Hp2 Hc2), Hu2, S1.
    cbn [db users with_db with_users].
    destruct (user_by_username_added (users (db st))
                (new_user (db st) rq username password)) as [v Hv].
    cbn [new_user User.username] in Hv. now rewrite Hv.
  - intros (u & Hin & Hname).
    destruct (user_by_username (users (db st)) username) as [v|] eqn:F.
    + exact E.
    + apply user_by_username_none with (u := u) in F; [congruence | exact Hin].
Qed.

(** Every answer of [register] either leaves the state untouched or is
    the successful registration of an anonymous session. *)
Lemma register_cases (st st' : App) (rq : Request) (r : Response) :
  register st rq = Return r st' ->
  st' = st \/
  (Session.has_user_id (session st) = false
   /\ r = redirect ep_login [flash "Registration successful! Please log in." "success"]
   /\ exists d, st' = with_db st d).
Proof.
  unfold register.
  destruct (Session.has_user_id (session st)) eqn:Hs; [intros H; inversion H; auto|].
  destruct (method rq); [intros H; inversion H; auto|].
  destruct (falsy _); [intros H; inversion H; auto|].
  destruct (falsy _); [intros H; inversion H; auto|].
  destruct (validate_username _) as [uv um].
  destruct (negb uv); [intros H; inversion H; auto|].
  destruct (validate_password _) as [pv pm].
  destruct (negb pv); [intros H; inversion H; auto|].
  destruct (negb _); [intros H; inversion H; auto|].
  destruct (user_by_username _ _); [intros H; inversion H; auto|].
  destruct (commit _ _) as [d|]; intros H; inversion H; subst; auto.
  right. repeat split; eauto.
Qed.

(** C9.  A [register] request that creates a user leaves the session
    mapping exactly as it was, without a user id, and is answered by a
    redirect to the login page: the browser stays anonymous. *)
Theorem register_does_not_log_in (st st' : App) (rq : Request) (r : Response) :
  register st rq = Return r st' ->
  users (db st') <> users (db st) ->
  session st' = session st
  /\ Session.user_id (session st') = None
  /\ Session.username (session st') = Session.username (session st)
  /\ body r = Redirect ep_login
  /\ r = redirect ep_login [flash "Registration successful! Please log in." "success"].
Proof.
  intros H Hnew. apply register_cases in H as [->|(Hs & -> & d & ->)]; [congruence|].
  unfold Session.has_user_id in Hs. cbn [session with_db].
  repeat split. destruct (Session.user_id (session st)); [discriminate | reflexivity].
Qed.

End Register.

Lemma register_succeeds_once_witness :
  In Demo.alice (users (db Demo.anonymous))
  /\ register Demo.anonymous (Demo.signup "Alice_1" "Passw0rd!")
     = register_success
         (state_after register Demo.anonymous (Demo.signup "Alice_1" "Passw0rd!"))
  /\ register (state_after register Demo.anonymous (Demo.signup "Alice_1" "Passw0rd!"))
       (Demo.signup "Alice_1" "Other1234")
     = register_duplicate
         (state_after register Demo.anonymous (Demo.signup "Alice_1" "Passw0rd!")).
Proof.
  split; [now left|].
  assert (forall u, In u (users (db Demo.anonymous)) -> User.username u <> "Alice_1") as F
      by (intros u [<-|[<-|[]]]; vm_compute; discriminate).
  destruct (register_succeeds_once Demo.anonymous
              (Demo.signup "Alice_1" "Passw0rd!") (Demo.signup "Alice_1" "Other1234")
              eq_refl eq_refl eq_refl eq_refl eq_refl eq_refl eq_refl eq_refl eq_refl)
    as [S _].
  destruct (S F eq_refl) as (A & _ & B). split; [exact A | exact B].
Defined.

Lemma register_does_not_log_in_witness :
  session (state_after register Demo.anonymous (Demo.signup "carol_3" "Passw0rd!"))
    = session Demo.anonymous
  /\ Session.user_id
       (session (state_after register Demo.anonymous (Demo.signup "carol_3" "Passw0rd!")))
     = None.
Proof.
  destruct (register_does_not_log_in Demo.anonymous
              (state_after register Demo.anonymous (Demo.signup "carol_3" "Passw0rd!"))
              (Demo.signup "carol_3" "Passw0rd!")
              (redirect ep_login [flash "Registration successful! Please log in." "success"])
              eq_refl ltac:(vm_compute; discriminate))
    as (A & B & _).
  split; [exact A | exact B].
Defined.

(** ** Creating and editing tasks *)

Lemma lstrip_spaces (s : string) : all_chars isspace s = true -> lstrip s = EmptyString.
Proof.
  induction s as [|c s IH]; simpl; [reflexivity|].
  intros H. apply andb_prop in H as [Hc Hs]. rewrite Hc. now apply IH.
Qed.

Lemma strip_spaces (s : string) : all_chars isspace s = true -> strip s = EmptyString.
Proof. intros H. unfold strip. now rewrite (lstrip_spaces s H). Qed.

Lemma len_lstrip (s : string) : (len (lstrip s) <= len s)%Z.
Proof.
  induction s as [|c s IH]; simpl lstrip; [lia|].
  destruct (isspace c); [rewrite len_String|]; lia.
Qed.

Lemma len_rstrip (s : string) : (len (rstrip s) <= len s)%Z.
Proof.
  induction s as [|c s IH]; simpl rstrip; [lia|].
  destruct (rstrip s) as [|d r] eqn:E.
  - destruct (isspace c); rewrite !len_String; pose proof (len_nonneg s);
      unfold len; simpl; lia.
  - rewrite !len_String in *. lia.
Qed.

Lemma len_strip (s : string) : (len (strip s) <= len s)%Z.
Proof.
  unfold strip. pose proof (len_rstrip (lstrip s)). pose proof (len_lstrip s). lia.
Qed.

Lemma add_task_decides (st : App) (rq : Request) (u : Z) :
  Session.user_id (session st) = Some u ->
  let title := strip (get (form rq) "title" EmptyString) in
  let description := strip (get (form rq) "description" EmptyString) in
  add_task st rq =
  if falsy title then
    Return (redirect ep_dashboard [flash "Task title is required." "error"]) st
  else if (len title >? 200)%Z then
    Return (redirect ep_dashboard
              [flash "Task title must be less than 200 characters." "error"]) st
  else if (len description >? 200)%Z then
    Return (redirect ep_dashboard
              [flash "Task description must be less than 200 characters." "error"]) st
  else if commit_ok rq then
    Return (redirect ep_dashboard [flash "Task added successfully!" "success"])
           (with_db st
              (with_tasks (db st)
                 (tasks (db st) ++ [new_task (db st) rq title description u])))
  else
    Return (redirect ep_dashboard
              [flash "An error occurred while adding the task. Please try again."
                 "error"]) st.
Proof.
  intros Hs title description. unfold add_task.
  rewrite (login_required_pass _ _ _ _ Hs), Hs. fold title description.
  unfold commit, add_row.
  destruct (falsy title), (len title >? 200)%Z, (len description >? 200)%Z,
    (commit_ok rq); reflexivity.
Qed.

Lemma edit_task_decides (st : App) (rq : Request) (u task_id : Z) (t : Task.t) :
  Session.user_id (session st) = Some u ->
  get_or_404 (tasks (db st)) task_id = Some t ->
  Task.user_id t = u ->
  method rq = POST ->
  let title := strip (get (form rq) "title" EmptyString) in
  let description := strip (get (form rq) "description" EmptyString) in
  edit_task task_id st rq =
  if falsy title then
    Return (render_template (edit_task_html t)
              [flash "Task title is required." "error"]) st
  else if (len title >? 200)%Z then
    Return (render_template (edit_task_html t)
              [flash "Task title must be less than 200 characters." "error"]) st
  else if (len description >? 200)%Z then
    Return (render_template (edit_task_html t)
              [flash "Task description must be less than 200 characters." "error"]) st
  else if commit_ok rq then
    Return (redirect ep_dashboard [flash "Task updated successfully!" "success"])
           (with_db st
              (with_tasks (db st)
                 (map (fun x => if (Task.id x =? Task.id t)%Z
                                then edited t title description
                                       (written_at rq (Task.updated_at t)
                                          (form_changes t title description))
                                else x)
                    (tasks (db st)))))
  else
    Return (render_template (edit_task_html t)
              [flash "An error occurred while updating the task. Please try again."
                 "error"]) st.
Proof.
  intros Hs Hr Ho Hm title description. unfold edit_task.
  rewrite (login_required_pass _ _ _ _ Hs), Hr, Hs.
  apply Z.eqb_eq in Ho. rewrite Ho, Hm. cbn [negb]. fold title description.
  unfold commit, update_row, edited, written_at, form_changes. cbn [Task.id].
  destruct (falsy title), (len title >? 200)%Z, (len description >? 200)%Z,
    (commit_ok rq); reflexivity.
Qed.

(** The three tests of the task routes, as a proposition. *)
Lemma task_form_checks (title description : string) :
  task_form_invalid title description <->
  falsy title = true \/ (len title >? 200)%Z = true \/ (len description >? 200)%Z = true.
Proof.
  unfold task_form_invalid. rewrite falsy_empty, !Z.gtb_ltb, !Z.ltb_lt. tauto.
Qed.

Ltac not_rejected :=
  let r := fresh "r" in
  let msg := fresh "msg" in
  let E := fresh "E" in
  let F := fresh "F" in
  let I := fresh "I" in
  intros (r & msg & E & F & I); inversion E; subst; cbn in F;
  try discriminate F;
  inversion F; subst; cbn in I;
  repeat (destruct I as [I|I]; [discriminate I|]); contradiction.

Ltac is_rejected :=
  eexists _, _; split; [reflexivity|];
  split; [reflexivity|]; cbn; tauto.

Lemma add_task_rejected_iff (st : App) (rq : Request) (u : Z) :
  Session.user_id (session st) = Some u ->
  rejected (add_task st rq) st <->
  task_form_invalid (strip (get (form rq) "title" EmptyString))
                    (strip (get (form rq) "description" EmptyString)).
Proof.
  intros Hs. rewrite (add_task_decides st rq u Hs), task_form_checks.
  destruct (falsy _), (len _ >? 200)%Z, (len _ >? 200)%Z, (commit_ok rq);
    (split; [intros _; tauto | intros _; is_rejected])
    || (split; [not_rejected | intros [H|[H|H]]; discriminate H]).
Qed.

Lemma edit_task_rejected_iff (st : App) (rq : Request) (u task_id : Z) (t : Task.t) :
  Session.user_id (session st) = Some u ->
  get_or_404 (tasks (db st)) task_id = Some t ->
  Task.user_id t = u ->
  method rq = POST ->
  rejected (edit_task task_id st rq) st <->
  task_form_invalid (strip (get (form rq) "title" EmptyString))
                    (strip (get (form rq) "description" EmptyString)).
Proof.
  intros Hs Hr Ho Hm.
  rewrite (edit_task_decides st rq u task_id t Hs Hr Ho Hm), task_form_checks.
  destruct (falsy _), (len _ >? 200)%Z, (len _ >? 200)%Z, (commit_ok rq);
    (split; [intros _; tauto | intros _; is_rejected])
    || (split; [not_rejected | intros [H|[H|H]]; discriminate H]).
Qed.

(** A form that passes the three tests is written when the commit
    succeeds: [add_task] appends the new row. *)
Lemma add_task_accepted (st : App) (rq : Request) (u : Z) :
  Session.user_id (session st) = Some u ->
  let title := strip (get (form rq) "title" EmptyString) in
  let description := strip (get (form rq) "description" EmptyString) in
  ~ task_form_invalid title description ->
  commit_ok rq = true ->
  tasks (db (state_after add_task st rq))
    = (tasks (db st) ++ [new_task (db st) rq title description u])%list.
Proof.
  intros Hs title description Hv Hc.
  rewrite task_form_checks in Hv. unfold state_after, serve.
  rewrite (add_task_decides st rq u Hs). fold title description. rewrite Hc.
  destruct (falsy title); [tauto|].
  destruct (len title >? 200)%Z; [tauto|].
  destruct (len description >? 200)%Z; [tauto|].
  reflexivity.
Qed.

(** [edit_task] replaces the row of the task. *)
Lemma edit_task_accepted (st : App) (rq : Request) (u task_id : Z) (t : Task.t) :
  Session.user_id (session st) = Some u ->
  get_or_404 (tasks (db st)) task_id = Some t ->
  Task.user_id t = u ->
  method rq = POST ->
  let title := strip (get (form rq) "title" EmptyString) in
  let description := strip (get (form rq) "description" EmptyString) in
  ~ task_form_invalid title description ->
  commit_ok rq = true ->
  get_or_404 (tasks (db (state_after (edit_task task_id) st rq))) task_id
    = Some (edited t title description
              (written_at rq (Task.updated_at t) (form_changes t title description))).
Proof.
  intros Hs Hr Ho Hm title description Hv Hc.
  rewrite task_form_checks in Hv. unfold state_after, serve.
  rewrite (edit_task_decides st rq u task_id t Hs Hr Ho Hm).
  fold title description. rewrite Hc.
  destruct (falsy title); [tauto|].
  destruct (len title >? 200)%Z; [tauto|].
  destruct (len description >? 200)%Z; [tauto|].
  cbn [snd db tasks with_db with_tasks].
  destruct (get_or_404_id _ _ _ Hr) as [Hid _]. rewrite <- Hid in Hr |- *.
  exact (get_or_404_updated (tasks (db st)) t (edited t title description _) Hr).
Qed.

(** C7.  With [title] and [description] the submitted values as the
    routes read them, [add_task] and [edit_task] reject the form before
    anything is written (validation notice, state unchanged) exactly when
    the title is empty, the title has more than 200 characters or the
    description has more than 200 characters; otherwise the row is
    created, respectively modified (its last-updated column set to a
    reading of the clock of the request), and a title and a description of
    200 characters are not rejected. *)
Theorem task_form_rejected_exactly_when_invalid (st : App) (rq : Request) (u : Z) :
  Session.user_id (session st) = Some u ->
  let title := strip (get (form rq) "title" EmptyString) in
  let description := strip (get (form rq) "description" EmptyString) in
  (rejected (add_task st rq) st <-> task_form_invalid title description)
  /\ (~ task_form_invalid title description ->
      commit_ok rq = true ->
      tasks (db (state_after add_task st rq))
        = (tasks (db st)
             ++ [ {| Task.id := next_id (map Task.id (tasks (db st)));
                     Task.title := title;
                     Task.description := description;
                     Task.completed := false;
                     Task.created_at := utcnow rq 0;
                     Task.updated_at := utcnow rq 1;
                     Task.user_id := u |} ])%list)
  /\ (forall task_id t,
        get_or_404 (tasks (db st)) task_id = Some t ->
        Task.user_id t = u ->
        method rq = POST ->
        (rejected (edit_task task_id st rq) st <-> task_form_invalid title description)
        /\ (~ task_form_invalid title description ->
            commit_ok rq = true ->
            get_or_404 (tasks (db (state_after (edit_task task_id) st rq))) task_id
              = Some (edited t title description
                        (written_at rq (Task.updated_at t)
                           (form_changes t title description)))))
  /\ (len title = 200%Z -> len description = 200%Z ->
      ~ task_form_invalid title description).
Proof.
  intros Hs title description.
  split; [exact (add_task_rejected_iff st rq u Hs)|].
  split; [exact (add_task_accepted st rq u Hs)|].
  split.
  - intros task_id t Hr Ho Hm.
    split; [exact (edit_task_rejected_iff st rq u task_id t Hs Hr Ho Hm)|].
    exact (edit_task_accepted st rq u task_id t Hs Hr Ho Hm).
  - intros Lt Ld [E|[H|H]]; [|lia|lia].
    rewrite E in Lt. discriminate Lt.
Qed.

Lemma task_form_rejected_exactly_when_invalid_witness :
  ~ rejected (add_task Demo.as_alice
                (Demo.post [("title", Demo.x200); ("description", Demo.x200)]))
      Demo.as_alice
  /\ rejected (edit_task 1 Demo.as_alice
                 (Demo.post [("title", String "x" Demo.x200)]))
       Demo.as_alice.
Proof.
  split.
  - destruct (task_form_rejected_exactly_when_invalid Demo.as_alice
                (Demo.post [("title", Demo.x200); ("description", Demo.x200)])
                1 eq_refl)
      as (A & _ & _ & B).
    intros R. apply A in R. revert R. apply B; reflexivity.
  - destruct (task_form_rejected_exactly_when_invalid Demo.as_alice
                (Demo.post [("title", String "x" Demo.x200)]) 1 eq_refl)
      as (_ & _ & E & _).
    apply (E 1%Z Demo.milk eq_refl eq_refl eq_refl).
    right. left. vm_compute. reflexivity.
Defined.

(** C10.  [add_task] and [edit_task] strip the submitted title and
    description before they validate and before they store: a title made
    of whitespace only is rejected with "Task title is required."; the
    title and the description of the row that is written are the stripped
    values; and the two limits of 200 characters bear on the stripped
    values, whatever the length of the raw form inputs. *)
Theorem task_form_is_stripped (st : App) (rq : Request) (u : Z) :
  Session.user_id (session st) = Some u ->
  let raw_title := get (form rq) "title" EmptyString in
  let raw_description := get (form rq) "description" EmptyString in
  let accepted :=
    strip raw_title <> EmptyString
    /\ (len (strip raw_title) <= 200)%Z
    /\ (len (strip raw_description) <= 200)%Z in
  let too_long :=
    (200 < len (strip raw_title))%Z \/ (200 < len (strip raw_description))%Z in
  (all_chars isspace raw_title = true ->
   add_task st rq
     = Return (redirect ep_dashboard [flash "Task title is required." "error"]) st)
  /\ (accepted -> commit_ok rq = true ->
      tasks (db (state_after add_task st rq))
        = (tasks (db st)
             ++ [ {| Task.id := next_id (map Task.id (tasks (db st)));
                     Task.title := strip raw_title;
                     Task.description := strip raw_description;
                     Task.completed := false;
                     Task.created_at := utcnow rq 0;
                     Task.updated_at := utcnow rq 1;
                     Task.user_id := u |} ])%list)
  /\ (too_long -> rejected (add_task st rq) st)
  /\ (forall task_id t,
        get_or_404 (tasks (db st)) task_id = Some t ->
        Task.user_id t = u ->
        method rq = POST ->
        (all_chars isspace raw_title = true ->
         edit_task task_id st rq
           = Return (render_template (edit_task_html t)
                       [flash "Task title is required." "error"]) st)
        /\ (accepted -> commit_ok rq = true ->
            exists t',
              get_or_404 (tasks (db (state_after (edit_task task_id) st rq))) task_id
                = Some t'
              /\ Task.title t' = strip raw_title
              /\ Task.description t' = strip raw_description
              /\ t' = {| Task.id := Task.id t;
                         Task.title := strip raw_title;
                         Task.description := strip raw_description;
                         Task.completed := Task.completed t;
                         Task.created_at := Task.created_at t;
                         Task.updated_at :=
                           written_at rq (Task.updated_at t)
                             (form_changes t (strip raw_title) (strip raw_description));
                         Task.user_id := Task.user_id t |})
        /\ (too_long -> rejected (edit_task task_id st rq) st)).
Proof.
  intros Hs raw_title raw_description accepted too_long.
  assert (accepted ->
          ~ task_form_invalid (strip raw_title) (strip raw_description)) as Hacc.
  { intros (Hn & Lt & Ld) [E|[H|H]]; [now apply Hn | lia | lia]. }
  split; [|split; [|split]].
  - intros Hw. rewrite (add_task_decides st rq u Hs).
    fold raw_title. now rewrite (strip_spaces raw_title Hw).
  - intros Ha Hc. exact (add_task_accepted st rq u Hs (Hacc Ha) Hc).
  - intros H. apply (add_task_rejected_iff st rq u Hs). right. exact H.
  - intros task_id t Hr Ho Hm. split; [|split].
    + intros Hw. rewrite (edit_task_decides st rq u task_id t Hs Hr Ho Hm).
      fold raw_title. now rewrite (strip_spaces raw_title Hw).
    + intros Ha Hc. eexists.
      split; [exact (edit_task_accepted st rq u task_id t Hs Hr Ho Hm (Hacc Ha) Hc)|].
      split; [reflexivity|]. split; reflexivity.
    + intros H. apply (edit_task_rejected_iff st rq u task_id t Hs Hr Ho Hm).
      right. exact H.
Qed.

Lemma task_form_is_stripped_witness :
  (201 < len (String " " (Demo.x200 ++ " ")))%Z
  /\ (exists t',
        get_or_404
          (tasks (db (state_after (edit_task 1) Demo.as_alice
                        (Demo.post [("title", String " " (Demo.x200 ++ " "));
                                    ("description", "  tomorrow ")])))) 1
        = Some t'
        /\ Task.title t' = Demo.x200
        /\ Task.description t' = "tomorrow")
  /\ add_task Demo.as_alice (Demo.post [("title", "   ")])
     = Return (redirect ep_dashboard [flash "Task title is required." "error"])
         Demo.as_alice.
Proof.
  split; [vm_compute; reflexivity|]. split.
  - destruct (task_form_is_stripped Demo.as_alice
                (Demo.post [("title", String " " (Demo.x200 ++ " "));
                            ("description", "  tomorrow ")]) 1 eq_refl)
      as (_ & _ & _ & E).
    destruct (E 1%Z Demo.milk eq_refl eq_refl eq_refl) as (_ & A & _).
    destruct A as (t' & G & T & D & _);
      [vm_compute; repeat split; discriminate | reflexivity |].
    exists t'. split; [exact G|]. split; [rewrite T | rewrite D]; reflexivity.
  - destruct (task_form_is_stripped Demo.as_alice (Demo.post [("title", "   ")])
                1 eq_refl) as (W & _).
    apply W. reflexivity.
Defined.

(** ** The routes, one request at a time *)

Ltac split_view :=
  repeat match goal with
         | |- context [match ?x with _ => _ end] =>
             lazymatch x with
             | context [match _ with _ => _ end] => fail
             | _ => destruct x eqn:?
             end
         end.

Ltac open_views :=
  unfold after, dispatch, state_after, serve, route_view, index, register, login,
    logout, dashboard, add_task, edit_task, toggle_task, delete_task,
    login_required, commit, add_user, add_row, update_row, delete_row,
    Session.has_user_id in *.

Section Routes.

Context `{Hasher : PasswordHasher}.

(** X1.  Without a user id in the session, every route behind
    [login_required] answers with a redirect to the login page and the
    notice "Please log in to access this page.", and changes nothing. *)
Theorem anonymous_is_sent_to_login (r : Route) (st : App) (rq : Request) :
  protected r = true ->
  Session.user_id (session st) = None ->
  serve (route_view r) st rq
    = (redirect ep_login [flash "Please log in to access this page." "error"], st).
Proof.
  intros Hp Hs. unfold serve.
  destruct r; try discriminate Hp; cbn [route_view];
    unfold logout, dashboard, add_task, edit_task, toggle_task, delete_task;
    now rewrite (login_required_block _ st rq Hs).
Qed.

(** X2.  With a user id in the session, the home page, the registration
    page and the login page answer with a bare redirect to the dashboard,
    whatever the method and the form: no user is created and the session
    is not replaced. *)
Theorem logged_in_is_sent_to_dashboard (r : Route) (st : App) (rq : Request) (u : Z) :
  protected r = false ->
  Session.user_id (session st) = Some u ->
  serve (route_view r) st rq = (redirect ep_dashboard [], st).
Proof.
  intros Hp Hs.
  destruct r; try discriminate Hp; open_views; now rewrite Hs.
Qed.

(** X3.  [logout] never touches the store and always leaves a session
    without user id; every protected route requested next is answered by
    the redirect to the login page. *)
Theorem logout_ends_the_session (st : App) (rq : Request) :
  db (state_after logout st rq) = db st
  /\ Session.user_id (session (state_after logout st rq)) = None
  /\ forall r rq',
       protected r = true ->
       serve (route_view r) (state_after logout st rq) rq'
       = (redirect ep_login [flash "Please log in to access this page." "error"],
          state_after logout st rq).
Proof.
  assert (db (state_after logout st rq) = db st
          /\ Session.user_id (session (state_after logout st rq)) = None) as [D S].
  { open_views. destruct (Session.user_id (session st)) eqn:E; cbn; auto. }
  repeat split; try assumption.
  intros r rq' Hp. now apply anonymous_is_sent_to_login.
Qed.


Lemma select_where_contains_none (q : string) (rows : list Task.t) :
  select_where (fun t => contains (Task.title t) q) rows = None <->
  pattern_fits q = false /\ rows <> [].
Proof.
  destruct (pattern_fits q) eqn:F.
  - rewrite (select_where_total _ (fun t => like_matches q (Task.title t)))
      by (intros x; now apply contains_fits).
    split; [discriminate | intros [H _]; discriminate H].
  - destruct rows as [|x rows].
    + simpl. split; [discriminate | intros [_ H]; congruence].
    + rewrite select_where_raises;
        [|intros y; now apply contains_too_long | discriminate].
      split; [intros _; split; [reflexivity | discriminate] | reflexivity].
Qed.

(** The answers a view returns are redirects and rendered pages, never
    the page of an error handler. *)
Lemma view_returns_page (r : Route) (st st' : App) (rq : Request) (resp : Response) :
  route_view r st rq = Return resp st' -> status resp = 302%Z \/ status resp = 200%Z.
Proof.
  destruct r; open_views; split_view; intros H; inversion H; subst; cbn; auto.
Qed.

(** When a view raises, and what. *)
Lemma view_raises (r : Route) (st : App) (rq : Request) (e : HTTPException) :
  route_view r st rq = Raise e <->
  exists u,
    Session.user_id (session st) = Some u
    /\ ((exists i, route_task r = Some i
                   /\ get_or_404 (tasks (db st)) i = None
                   /\ get_or_404_error i = e)
        \/ (e = InternalServerError
            /\ r = route_dashboard
            /\ user_get (users (db st)) u <> None
            /\ strip (get (args rq) "search" EmptyString) <> EmptyString
            /\ pattern_fits (strip (get (args rq) "search" EmptyString)) = false
            /\ tasks_of (tasks (db st)) u <> [])).
Proof.
  split.
  - destruct r; cbn [route_view];
      try (open_views; split_view; discriminate).
    + (* dashboard *)
      unfold dashboard, login_required, Session.has_user_id.
      destruct (Session.user_id (session st)) as [u|] eqn:Hs; cbn [negb];
        [|discriminate].
      destruct (user_get (users (db st)) u) as [user|] eqn:Hu; [|discriminate].
      destruct (user_get_id _ _ _ Hu) as [Hid _]. rewrite Hid.
      destruct (falsy (strip (get (args rq) "search" EmptyString))) eqn:Fq;
        cbn [negb]; [discriminate|].
      destruct (select_where _ _) eqn:S; [discriminate|].
      apply select_where_contains_none in S as [Hf Hr].
      intros H. injection H as <-. exists u. split; [reflexivity|]. right.
      repeat split; auto; [congruence|].
      intros E. rewrite E in Fq. discriminate.
    + unfold edit_task, login_required, Session.has_user_id.
      destruct (Session.user_id (session st)) as [u|] eqn:Hs; cbn [negb];
        [|discriminate].
      destruct (get_or_404 (tasks (db st)) task_id) eqn:Hr.
      * split_view; discriminate.
      * intros H. injection H as <-. exists u. split; [reflexivity|]. left.
        exists task_id. auto.
    + unfold toggle_task, login_required, Session.has_user_id.
      destruct (Session.user_id (session st)) as [u|] eqn:Hs; cbn [negb];
        [|discriminate].
      destruct (get_or_404 (tasks (db st)) task_id) eqn:Hr.
      * unfold commit, update_row. split_view; discriminate.
      * intros H. injection H as <-. exists u. split; [reflexivity|]. left.
        exists task_id. auto.
    + unfold delete_task, login_required, Session.has_user_id.
      destruct (Session.user_id (session st)) as [u|] eqn:Hs; cbn [negb];
        [|discriminate].
      destruct (get_or_404 (tasks (db st)) task_id) eqn:Hr.
      * unfold commit, delete_row. split_view; discriminate.
      * intros H. injection H as <-. exists u. split; [reflexivity|]. left.
        exists task_id. auto.
  - intros (u & Hs & [(i & Hr & Hm & <-)|(-> & -> & Hu & Hq & Hf & Ht)]).
    + destruct r; try discriminate Hr; injection Hr as ->; cbn [route_view].
      * exact (edit_task_missing st rq u Hs i Hm).
      * exact (toggle_task_missing st rq u Hs i Hm).
      * exact (delete_task_missing st rq u Hs i Hm).
    + destruct (user_get (users (db st)) u) as [user|] eqn:Hu'; [|congruence].
      exact (dashboard_raises st rq u user Hs Hu' Hq Hf Ht).
Qed.

(** X5.  For a session whose user id, if it has one, is a 64-bit
    integer: the not-found page is produced exactly for a logged-in request
    to [edit_task], [toggle_task] or [delete_task] whose id is a 64-bit
    integer and the key of no task.  The server-error page is produced
    exactly for such a request whose id is not a 64-bit integer, and for a
    dashboard search by a stored user who has at least one task when the
    pattern of the search exceeds 50000 bytes.  An anonymous visitor gets
    neither, no view fails on a missing session key, and neither page
    comes with a change of the state. *)
Theorem error_pages (r : Route) (st : App) (rq : Request) :
  (forall u, Session.user_id (session st) = Some u -> sqlite_integer u = true) ->
  let q := strip (get (args rq) "search" EmptyString) in
  (fst (serve (route_view r) st rq) = not_found_error <->
   exists u i,
     Session.user_id (session st) = Some u
     /\ route_task r = Some i
     /\ get_or_404 (tasks (db st)) i = None
     /\ sqlite_integer i = true)
  /\ (fst (serve (route_view r) st rq) = internal_error <->
      exists u,
        Session.user_id (session st) = Some u
        /\ ((exists i, route_task r = Some i
                       /\ get_or_404 (tasks (db st)) i = None
                       /\ sqlite_integer i = false)
            \/ (r = route_dashboard
                /\ user_get (users (db st)) u <> None
                /\ q <> EmptyString
                /\ pattern_fits q = false
                /\ tasks_of (tasks (db st)) u <> [])))
  /\ (fst (serve (route_view r) st rq) = not_found_error
      \/ fst (serve (route_view r) st rq) = internal_error ->
      snd (serve (route_view r) st rq) = st).
Proof.
  intros _ q.
  assert (forall e, route_view r st rq = Raise e ->
                    serve (route_view r) st rq
                    = (match e with
                       | NotFound => not_found_error
                       | InternalServerError => internal_error
                       end, st)) as Hraise
      by (intros e H; unfold serve; rewrite H; now destruct e).
  assert (forall page, (page = not_found_error \/ page = internal_error) ->
            fst (serve (route_view r) st rq) = page ->
            exists e, route_view r st rq = Raise e
                      /\ page = match e with
                                | NotFound => not_found_error
                                | InternalServerError => internal_error
                                end) as Hpage.
  { intros page Hp. unfold serve.
    destruct (route_view r st rq) as [e|resp st'] eqn:V.
    - exists e. split; [reflexivity|]. destruct e; cbn in H; now subst.
    - cbn. intros ->. apply view_returns_page in V.
      destruct Hp as [->| ->], V as [V|V]; discriminate V. }
  split; [|split].
  - split.
    + intros H. destruct (Hpage _ (or_introl eq_refl) H) as (e & V & E).
      destruct e; [|discriminate E].
      apply view_raises in V as (u & Hs & [(i & Hr & Hm & He)|(He & _)]);
        [|discriminate He].
      exists u, i. repeat split; auto.
      unfold get_or_404_error in He. destruct (sqlite_integer i); congruence.
    + intros (u & i & Hs & Hr & Hm & Hi).
      rewrite (Hraise NotFound); [reflexivity|].
      apply view_raises. exists u. split; [exact Hs|]. left. exists i.
      repeat split; auto. unfold get_or_404_error. now rewrite Hi.
  - split.
    + intros H. destruct (Hpage _ (or_intror eq_refl) H) as (e & V & E).
      destruct e; [discriminate E|].
      apply view_raises in V as (u & Hs & [(i & Hr & Hm & He)|(_ & D)]);
        exists u; (split; [exact Hs|]); [left|right; exact D].
      exists i. repeat split; auto.
      unfold get_or_404_error in He. destruct (sqlite_integer i); congruence.
    + intros (u & Hs & [(i & Hr & Hm & Hi)|D]);
        (rewrite (Hraise InternalServerError); [reflexivity|]);
        apply view_raises; exists u; (split; [exact Hs|]).
      * left. exists i. repeat split; auto. unfold get_or_404_error. now rewrite Hi.
      * right. split; [reflexivity | exact D].
  - intros [H|H].
    + destruct (Hpage _ (or_introl eq_refl) H) as (e & V & _).
      now rewrite (Hraise e V).
    + destruct (Hpage _ (or_intror eq_refl) H) as (e & V & _).
      now rewrite (Hraise e V).
Qed.

End Routes.

(** ** What a request can change *)

Lemma rstrip_ends (s w : string) (c : ascii) :
  rstrip s = w ++ String c EmptyString -> isspace c = false.
Proof.
  revert w. induction s as [|a s IH]; intros w; simpl.
  - destruct w; discriminate.
  - destruct (rstrip s) as [|b r] eqn:E.
    + destruct (isspace a) eqn:Ha; [destruct w; discriminate|].
      destruct w as [|a' w]; simpl; intros H; inversion H; subst; [exact Ha|].
      destruct w; discriminate.
    + destruct w as [|a' w]; simpl; intros H; inversion H; subst.
      now apply (IH w).
Qed.

(** On a stripped string [validate_username] and the rule table agree:
    the newline that [$] lets through cannot end a stripped string. *)
Lemma validate_username_stripped (s : string) :
  fst (validate_username (strip s)) = username_rule (strip s).
Proof.
  destruct (username_rule (strip s)) eqn:R.
  - now rewrite (validate_username_rule _ R).
  - destruct (fst (validate_username (strip s))) eqn:V; [|reflexivity].
    apply validate_username_passes in V as [V|(w & _ & _ & E & _)]; [congruence|].
    unfold strip in E. apply rstrip_ends in E. discriminate E.
Qed.

Section Changes.

Context `{Hasher : PasswordHasher}.

(** X6.  The users table changes only through [register], and then by
    one appended row: the session is anonymous, the method is POST, the
    write succeeds, the stripped username satisfies the rule table and is
    not yet stored, the password satisfies the rule table and is repeated
    by the confirmation, and the row holds the stripped username and the
    hash of the password. *)
Theorem users_change_only_by_valid_registration (r : Route) (st : App) (rq : Request) :
  let username := strip (get (form rq) "username" EmptyString) in
  let password := get (form rq) "password" EmptyString in
  users (db (after r st rq)) = users (db st)
  \/ (r = route_register
      /\ method rq = POST
      /\ Session.user_id (session st) = None
      /\ commit_ok rq = true
      /\ username_rule username = true
      /\ password_rule password = true
      /\ get (form rq) "confirm_password" EmptyString = password
      /\ user_by_username (users (db st)) username = None
      /\ users (db (after r st rq))
         = (users (db st)
              ++ [ {| User.id := next_id (map User.id (users (db st)));
                      User.username := username;
                      User.password_hash :=
                        generate_password_hash (salt rq) password;
                      User.created_at := utcnow rq 0 |} ])%list).
Proof.
  intros username password.
  destruct r;
    try (left; open_views; unfold get_or_404_error; split_view; reflexivity).
  unfold after, dispatch. cbn [method_allowed route_methods route_view existsb].
  replace (method_eqb (method rq) GET || (method_eqb (method rq) POST || false))
    with true by (now destruct (method rq)).
  unfold serve, register, Session.has_user_id.
  destruct (Session.user_id (session st)) eqn:Hs; [now left|].
  destruct (method rq) eqn:Hm; [now left|].
  fold username password.
  destruct (falsy username); [now left|].
  destruct (falsy password); [now left|].
  pose proof (validate_username_stripped (get (form rq) "username" EmptyString)) as Vu.
  fold username in Vu.
  pose proof (validate_password_rule password) as Vp.
  destruct (validate_username username) as [uv um].
  destruct (validate_password password) as [pv pm]. cbn [fst] in Vu, Vp.
  destruct uv; [|now left]. destruct pv; [|now left]. cbn [negb].
  destruct (password =? get (form rq) "confirm_password" EmptyString)%string eqn:Hc;
    [|now left].
  apply String.eqb_eq in Hc. cbn [negb].
  destruct (user_by_username (users (db st)) username) eqn:Hf; [now left|].
  unfold commit, add_user. cbn [new_user User.username]. rewrite Hf.
  destruct (commit_ok rq); [|now left].
  right. repeat split; auto.
Qed.

(** X7.  The tasks table changes only in three ways, each through a
    POST whose write succeeds: [add_task] by a logged-in user appends a
    row owned by that user, with the stripped title and description,
    which pass the three tests, not completed, and stamped with two
    readings of the clock; [edit_task] and [toggle_task] by the owner of
    the task rewrite its row, whose last-updated column takes the first
    reading of the clock, or the second when the first equals the stored
    one and another column changes; [delete_task] by the owner removes
    it. *)
Theorem tasks_change_only_by_owner (r : Route) (st : App) (rq : Request) :
  let title := strip (get (form rq) "title" EmptyString) in
  let description := strip (get (form rq) "description" EmptyString) in
  let replace_by t' :=
    map (fun x => if (Task.id x =? Task.id t')%Z then t' else x) (tasks (db st)) in
  tasks (db (after r st rq)) = tasks (db st)
  \/ (method rq = POST /\ commit_ok rq = true
      /\ ((exists u,
              r = route_add_task
              /\ Session.user_id (session st) = Some u
              /\ ~ task_form_invalid title description
              /\ tasks (db (after r st rq))
                 = (tasks (db st)
                      ++ [ {| Task.id := next_id (map Task.id (tasks (db st)));
                              Task.title := title;
                              Task.description := description;
                              Task.completed := false;
                              Task.created_at := utcnow rq 0;
                              Task.updated_at := utcnow rq 1;
                              Task.user_id := u |} ])%list)
          \/ (exists i t,
                 get_or_404 (tasks (db st)) i = Some t
                 /\ Session.user_id (session st) = Some (Task.user_id t)
                 /\ ((r = route_edit_task i
                      /\ ~ task_form_invalid title description
                      /\ tasks (db (after r st rq))
                         = replace_by
                             (edited t title description
                                (written_at rq (Task.updated_at t)
                                   (form_changes t title description))))
                     \/ (r = route_toggle_task i
                         /\ tasks (db (after r st rq))
                            = replace_by
                                (toggled t (written_at rq (Task.updated_at t) true)))
                     \/ (r = route_delete_task i
                         /\ tasks (db (after r st rq))
                            = filter (fun x => negb (Task.id x =? Task.id t)%Z)
                                (tasks (db st))))))).
Proof.
  intros title description replace_by.
  destruct r;
    try (left; open_views; unfold get_or_404_error; split_view; reflexivity).
  - (* add_task *)
    unfold after, dispatch. cbn [method_allowed route_methods route_view existsb].
    destruct (method rq) eqn:Hm; [now left|]. cbn [method_eqb orb].
    destruct (Session.user_id (session st)) as [u|] eqn:Hs.
    + unfold serve. rewrite (add_task_decides st rq u Hs). fold title description.
      destruct (falsy title) eqn:F1; [now left|].
      destruct (len title >? 200)%Z eqn:F2; [now left|].
      destruct (len description >? 200)%Z eqn:F3; [now left|].
      destruct (commit_ok rq); [|now left].
      right. repeat split. left. exists u. repeat split.
      rewrite task_form_checks. intros [H|[H|H]]; congruence.
    + left. unfold serve, add_task. now rewrite (login_required_block _ st rq Hs).
  - (* edit_task *)
    unfold after, dispatch. cbn [method_allowed route_methods route_view existsb].
    replace (method_eqb (method rq) GET || (method_eqb (method rq) POST || false))
      with true by (now destruct (method rq)).
    destruct (Session.user_id (session st)) as [u|] eqn:Hs;
      [|left; unfold serve, edit_task; now rewrite (login_required_block _ st rq Hs)].
    destruct (get_or_404 (tasks (db st)) task_id) as [t|] eqn:Hr;
      [|left; unfold serve; rewrite (edit_task_missing st rq u Hs task_id Hr);
        now destruct (get_or_404_error task_id)].
    destruct (Z.eq_dec (Task.user_id t) u) as [Ho|Ho];
      [|left; unfold serve; now rewrite (edit_task_foreign st rq u Hs task_id t Hr Ho)].
    destruct (method rq) eqn:Hm.
    { left. open_views. rewrite Hs, Hr, Hm. apply Z.eqb_eq in Ho. now rewrite Ho. }
    unfold serve. rewrite (edit_task_decides st rq u task_id t Hs Hr Ho Hm).
    fold title description.
    destruct (falsy title) eqn:F1; [now left|].
    destruct (len title >? 200)%Z eqn:F2; [now left|].
    destruct (len description >? 200)%Z eqn:F3; [now left|].
    destruct (commit_ok rq); [|now left].
    right. repeat split. right. exists task_id, t. subst u. repeat split; auto.
    left. repeat split.
    rewrite task_form_checks. intros [H|[H|H]]; congruence.
  - (* toggle_task *)
    unfold after, dispatch. cbn [method_allowed route_methods route_view existsb].
    destruct (method rq) eqn:Hm; [now left|]. cbn [method_eqb orb].
    destruct (Session.user_id (session st)) as [u|] eqn:Hs;
      [|left; unfold serve, toggle_task; now rewrite (login_required_block _ st rq Hs)].
    destruct (get_or_404 (tasks (db st)) task_id) as [t|] eqn:Hr;
      [|left; unfold serve; rewrite (toggle_task_missing st rq u Hs task_id Hr);
        now destruct (get_or_404_error task_id)].
    destruct (Z.eq_dec (Task.user_id t) u) as [Ho|Ho];
      [|left; unfold serve; now rewrite (toggle_task_foreign st rq u Hs task_id t Hr Ho)].
    open_views. rewrite Hs, Hr. apply Z.eqb_eq in Ho. rewrite Ho. cbn [negb].
    destruct (commit_ok rq); [|now left].
    right. repeat split. right. exists task_id, t. apply Z.eqb_eq in Ho. subst u.
    repeat split; auto. right. left. split; [reflexivity|].
    unfold replace_by. now rewrite written_at_toggle.
  - (* delete_task *)
    unfold after, dispatch. cbn [method_allowed route_methods route_view existsb].
    destruct (method rq) eqn:Hm; [now left|]. cbn [method_eqb orb].
    destruct (Session.user_id (session st)) as [u|] eqn:Hs;
      [|left; unfold serve, delete_task; now rewrite (login_required_block _ st rq Hs)].
    destruct (get_or_404 (tasks (db st)) task_id) as [t|] eqn:Hr;
      [|left; unfold serve; rewrite (delete_task_missing st rq u Hs task_id Hr);
        now destruct (get_or_404_error task_id)].
    destruct (Z.eq_dec (Task.user_id t) u) as [Ho|Ho];
      [|left; unfold serve; now rewrite (delete_task_foreign st rq u Hs task_id t Hr Ho)].
    open_views. rewrite Hs, Hr. apply Z.eqb_eq in Ho. rewrite Ho. cbn [negb].
    destruct (commit_ok rq); [|now left].
    right. repeat split. right. exists task_id, t. apply Z.eqb_eq in Ho. subst u.
    repeat split; auto.
Qed.

End Changes.

(** ** Rows under a request *)

Lemma get_or_404_app (ts l : list Task.t) (i : Z) :
  get_or_404 (ts ++ l) i =
  match get_or_404 ts i with
  | Some t => Some t
  | None => get_or_404 l i
  end.
Proof.
  unfold get_or_404. destruct (sqlite_integer i); [|reflexivity].
  induction ts as [|x ts IH]; simpl; [reflexivity|].
  now destruct (Task.id x =? i)%Z.
Qed.

Lemma get_or_404_update_other (ts : list Task.t) (t' : Task.t) (i : Z) :
  Task.id t' <> i ->
  get_or_404 (map (fun x => if (Task.id x =? Task.id t')%Z then t' else x) ts) i
  = get_or_404 ts i.
Proof.
  intros Hn. unfold get_or_404. destruct (sqlite_integer i); [|reflexivity].
  induction ts as [|x ts IH]; simpl; [reflexivity|].
  destruct (Task.id x =? Task.id t')%Z eqn:E.
  - apply Z.eqb_eq in E. apply Z.eqb_neq in Hn. rewrite Hn.
    rewrite <- E in Hn. now rewrite Hn.
  - destruct (Task.id x =? i)%Z; [reflexivity | exact IH].
Qed.

Lemma get_or_404_deleted (ts : list Task.t) (i : Z) :
  get_or_404 (filter (fun x => negb (Task.id x =? i)%Z) ts) i = None.
Proof.
  unfold get_or_404. destruct (sqlite_integer i); [|reflexivity].
  induction ts as [|x ts IH]; simpl; [reflexivity|].
  destruct (Task.id x =? i)%Z eqn:E; simpl; [exact IH|]. now rewrite E.
Qed.

Lemma get_or_404_delete_other (ts : list Task.t) (i j : Z) :
  j <> i ->
  get_or_404 (filter (fun x => negb (Task.id x =? j)%Z) ts) i = get_or_404 ts i.
Proof.
  intros Hn. unfold get_or_404. destruct (sqlite_integer i); [|reflexivity].
  induction ts as [|x ts IH]; simpl; [reflexivity|].
  destruct (Task.id x =? j)%Z eqn:E; simpl.
  - apply Z.eqb_eq in E. rewrite E. apply Z.eqb_neq in Hn. now rewrite Hn.
  - now destruct (Task.id x =? i)%Z.
Qed.

Section Rows.

Context `{Hasher : PasswordHasher}.

(** X8.  Whatever the route and the request, the row stored under a
    task id stays as it is, unless the session is that of the task's
    owner, the method is POST and the write succeeds; then [edit_task]
    for that id stores the edited row, [toggle_task] the toggled row, and
    [delete_task] leaves no row under the id.  The last-updated column of
    a rewritten row is the first reading of the clock, or the second when
    the first equals the stored value and another column changes. *)
Theorem task_row_changes_only_by_owner
    (r : Route) (st : App) (rq : Request) (i : Z) (t : Task.t) :
  get_or_404 (tasks (db st)) i = Some t ->
  let title := strip (get (form rq) "title" EmptyString) in
  let description := strip (get (form rq) "description" EmptyString) in
  let row' := get_or_404 (tasks (db (after r st rq))) i in
  row' = Some t
  \/ (Session.user_id (session st) = Some (Task.user_id t)
      /\ method rq = POST /\ commit_ok rq = true
      /\ ((r = route_edit_task i
           /\ row' = Some (edited t title description
                             (if (utcnow rq 0 =? Task.updated_at t)%Z
                                 && form_changes t title description
                              then utcnow rq 1 else utcnow rq 0)))
          \/ (r = route_toggle_task i
              /\ row' = Some (toggled t
                                (if (utcnow rq 0 =? Task.updated_at t)%Z
                                 then utcnow rq 1 else utcnow rq 0)))
          \/ (r = route_delete_task i /\ row' = None))).
Proof.
  intros Hr title description row'. subst row' title description.
  destruct (tasks_change_only_by_owner r st rq)
    as [E|(Hm & Hc & [(u & _ & _ & _ & E)|(j & tj & Hj & Hs & C)])].
  - left. now rewrite E.
  - left. rewrite E, get_or_404_app. now rewrite Hr.
  - destruct (get_or_404_id _ _ _ Hj) as [Hid _].
    destruct (Z.eq_dec j i) as [->|Hn].
    + assert (tj = t) as -> by congruence.
      subst i. right. repeat split; auto.
      destruct C as [(-> & _ & E)|[(-> & E)|(-> & E)]]; rewrite E.
      * left. split; [reflexivity|].
        exact (get_or_404_updated _ t (edited t _ _ _) Hr).
      * right. left. split; [reflexivity|]. rewrite <- written_at_toggle.
        exact (get_or_404_updated _ t (toggled t _) Hr).
      * right. right. split; [reflexivity|]. apply get_or_404_deleted.
    + left. destruct C as [(_ & _ & E)|[(_ & E)|(_ & E)]]; rewrite E.
      * rewrite get_or_404_update_other; [exact Hr | cbn; congruence].
      * rewrite get_or_404_update_other; [exact Hr | cbn; congruence].
      * rewrite get_or_404_delete_other; [exact Hr | congruence].
Qed.

(** X9.  A request from a session that is not the owner's, anonymous
    or logged in as someone else, leaves the row of a task exactly as it
    was, on every route. *)
Theorem strangers_leave_task_rows_alone
    (r : Route) (st : App) (rq : Request) (i : Z) (t : Task.t) :
  get_or_404 (tasks (db st)) i = Some t ->
  Session.user_id (session st) <> Some (Task.user_id t) ->
  get_or_404 (tasks (db (after r st rq))) i = Some t.
Proof.
  intros Hr Hs.
  destruct (task_row_changes_only_by_owner r st rq i t Hr) as [E|(Ho & _)];
    [exact E | contradiction].
Qed.

(** X10.  No request changes the key, the owner or the creation time of
    a task: while a row is stored under an id, these three columns keep
    the values they had. *)
Theorem task_identity_is_kept
    (r : Route) (st : App) (rq : Request) (i : Z) (t t' : Task.t) :
  get_or_404 (tasks (db st)) i = Some t ->
  get_or_404 (tasks (db (after r st rq))) i = Some t' ->
  Task.id t' = Task.id t
  /\ Task.user_id t' = Task.user_id t
  /\ Task.created_at t' = Task.created_at t.
Proof.
  intros Hr Hr'.
  destruct (task_row_changes_only_by_owner r st rq i t Hr)
    as [E|(_ & _ & _ & [(_ & E)|[(_ & E)|(_ & E)]])];
    rewrite E in Hr'; inversion Hr'; subst; auto.
Qed.

End Rows.

(** ** Sessions and the store under a request *)

Section Effects.

Context `{Hasher : PasswordHasher}.

(** X11.  A request leaves the session as it was, or clears it
    ([logout], and [dashboard] for an unknown user), or it is a POST to
    [login] from an anonymous session, the stripped username is that of a
    stored user, the password checks against that user's stored hash, and
    the session then holds that user's id and username.  No other route
    and no other input establishes a session. *)
Theorem session_changes_only_by_login_or_clear (r : Route) (st : App) (rq : Request) :
  session (after r st rq) = session st
  \/ (session (after r st rq) = Session.clear
      /\ (r = route_logout \/ r = route_dashboard))
  \/ (r = route_login
      /\ method rq = POST
      /\ Session.user_id (session st) = None
      /\ exists user,
           user_by_username (users (db st))
             (strip (get (form rq) "username" EmptyString)) = Some user
           /\ check_password user (get (form rq) "password" EmptyString) = true
           /\ session (after r st rq)
              = {| Session.user_id := Some (User.id user);
                   Session.username := Some (User.username user) |}).
Proof.
  destruct r;
    try (left; open_views; split_view; reflexivity);
    try (open_views; split_view; cbn; auto; fail).
  (* login *)
  unfold after, dispatch. cbn [method_allowed route_methods route_view existsb].
  replace (method_eqb (method rq) GET || (method_eqb (method rq) POST || false))
    with true by (now destruct (method rq)).
  unfold serve, login, Session.has_user_id.
  destruct (Session.user_id (session st)) eqn:Hs; [now left|].
  destruct (method rq) eqn:Hm; [now left|].
  destruct (falsy _ || falsy _); [now left|].
  destruct (user_by_username _ _) as [user|] eqn:Hu; [|now left].
  destruct (check_password user _) eqn:Hc; [|now left].
  right. right. repeat split. exists user. repeat split; assumption.
Qed.

Lemma database_eq (d d' : Database) :
  users d' = users d -> tasks d' = tasks d -> d' = d.
Proof. destruct d, d'; simpl; intros -> ->; reflexivity. Qed.

(** X12.  A request whose [db.session.commit()] fails leaves both
    tables exactly as they were, on every route: the rollback is
    complete. *)
Theorem failed_commit_changes_nothing (r : Route) (st : App) (rq : Request) :
  commit_ok rq = false -> db (after r st rq) = db st.
Proof.
  intros Hc. apply database_eq.
  - destruct (users_change_only_by_valid_registration r st rq)
      as [E|(_ & _ & _ & H & _)]; [exact E | congruence].
  - destruct (tasks_change_only_by_owner r st rq) as [E|(_ & H & _)];
      [exact E | congruence].
Qed.

(** X13.  A GET request never writes to the store, on any route and
    for any session. *)
Theorem get_requests_are_safe (r : Route) (st : App) (rq : Request) :
  method rq = GET -> db (after r st rq) = db st.
Proof.
  intros Hm. apply database_eq.
  - destruct (users_change_only_by_valid_registration r st rq)
      as [E|(_ & H & _)]; [exact E | congruence].
  - destruct (tasks_change_only_by_owner r st rq) as [E|(H & _)];
      [exact E | congruence].
Qed.

End Effects.

(** ** Requests in sequence *)

Lemma next_id_above (ids : list Z) (x : Z) : In x ids -> (x < next_id ids)%Z.
Proof.
  unfold next_id. induction ids as [|y ids IH]; simpl; [contradiction|].
  intros [->|H]; [lia|]. specialize (IH H). lia.
Qed.

Lemma get_or_404_next_id (ts : list Task.t) :
  get_or_404 ts (next_id (map Task.id ts)) = None.
Proof.
  destruct (get_or_404 ts (next_id (map Task.id ts))) as [t|] eqn:E; [|reflexivity].
  apply get_or_404_id in E as [Hid Hin].
  apply (in_map Task.id) in Hin. apply next_id_above in Hin. lia.
Qed.

Lemma filter_partition_length {A : Type} (f : A -> bool) (l : list A) :
  length l = (length (filter f l) + length (filter (fun x => negb (f x)) l))%nat.
Proof.
  induction l as [|x l IH]; simpl; [reflexivity|].
  destruct (f x); simpl; lia.
Qed.

Lemma user_by_username_app (us l : list User.t) (name : string) :
  user_by_username (us ++ l) name =
  match user_by_username us name with
  | Some u => Some u
  | None => user_by_username l name
  end.
Proof.
  unfold user_by_username. induction us as [|x us IH]; simpl; [reflexivity|].
  now destruct (User.username x =? name)%string.
Qed.

Section Sequences.

Context `{Hasher : PasswordHasher}.

(** X14.  After the owner has deleted a task, no row is stored under
    its id, every other id holds the row it held, users and session are
    as before, and a further request to edit, toggle or delete that id is
    answered by the not-found page. *)
Theorem deleted_task_is_gone
    (st : App) (rq rq' : Request) (u i : Z) (t : Task.t) :
  Session.user_id (session st) = Some u ->
  get_or_404 (tasks (db st)) i = Some t ->
  Task.user_id t = u ->
  commit_ok rq = true ->
  let st' := state_after (delete_task i) st rq in
  get_or_404 (tasks (db st')) i = None
  /\ (forall j, j <> i ->
        get_or_404 (tasks (db st')) j = get_or_404 (tasks (db st)) j)
  /\ users (db st') = users (db st)
  /\ session st' = session st
  /\ forall v, In v [edit_task; toggle_task; delete_task] ->
       serve (v i) st' rq' = (not_found_error, st').
Proof.
  intros Hs Hr Ho Hc st'.
  assert (st' = with_db st (with_tasks (db st)
                  (filter (fun x => negb (Task.id x =? i)%Z) (tasks (db st))))) as E.
  { unfold st'. open_views. rewrite Hs, Hr. apply Z.eqb_eq in Ho. rewrite Ho, Hc.
    destruct (get_or_404_id _ _ _ Hr) as [-> _]. reflexivity. }
  assert (get_or_404 (tasks (db st')) i = None) as Hgone
      by (rewrite E; apply get_or_404_deleted).
  assert (Session.user_id (session st') = Some u) as Hs' by (now rewrite E).
  split; [exact Hgone|]. split; [|split; [|split]].
  - intros j Hj. rewrite E. cbn [db tasks with_db with_tasks].
    apply get_or_404_delete_other. congruence.
  - now rewrite E.
  - now rewrite E.
  - assert (get_or_404_error i = NotFound) as He
        by (unfold get_or_404_error; now rewrite (get_or_404_in_range _ _ _ Hr)).
    intros v [<-|[<-|[<-|[]]]]; unfold serve.
    + now rewrite (edit_task_missing st' rq' u Hs' i Hgone), He.
    + now rewrite (toggle_task_missing st' rq' u Hs' i Hgone), He.
    + now rewrite (delete_task_missing st' rq' u Hs' i Hgone), He.
Qed.

(** X15.  A task added through [add_task] gets a key under which no
    row was stored; afterwards that key, a 64-bit integer like every key
    SQLite gives, holds the new row, owned by the user of the session and
    not completed, every row stored before is found as before, and the
    user's dashboard without a search lists the new task. *)
Theorem added_task_is_stored (st : App) (rq rq2 : Request) (u : Z) (user : User.t) :
  Session.user_id (session st) = Some u ->
  user_get (users (db st)) u = Some user ->
  let title := strip (get (form rq) "title" EmptyString) in
  let description := strip (get (form rq) "description" EmptyString) in
  ~ task_form_invalid title description ->
  commit_ok rq = true ->
  strip (get (args rq2) "search" EmptyString) = EmptyString ->
  sqlite_integer (next_id (map Task.id (tasks (db st)))) = true ->
  let new := new_task (db st) rq title description u in
  let st' := state_after add_task st rq in
  get_or_404 (tasks (db st)) (Task.id new) = None
  /\ get_or_404 (tasks (db st')) (Task.id new) = Some new
  /\ Task.user_id new = u
  /\ Task.completed new = false
  /\ (forall j t, get_or_404 (tasks (db st)) j = Some t ->
                  get_or_404 (tasks (db st')) j = Some t)
  /\ exists listing,
       rendered_tasks (dashboard st' rq2) = Some listing /\ In new listing.
Proof.
  intros Hs Hu title description Hv Hc Hq Hi new st'.
  assert (tasks (db st') = (tasks (db st) ++ [new])%list) as Et
      by exact (add_task_accepted st rq u Hs Hv Hc).
  assert (users (db st') = users (db st) /\ session st' = session st) as [Eu Es].
  { unfold st', state_after, serve. rewrite (add_task_decides st rq u Hs).
    split_view; auto. }
  assert (get_or_404 (tasks (db st)) (Task.id new) = None) as Hfresh
      by apply get_or_404_next_id.
  split; [exact Hfresh|]. split; [|split; [reflexivity|split; [reflexivity|split]]].
  - rewrite Et, get_or_404_app, Hfresh. unfold get_or_404.
    cbn [new new_task Task.id]. rewrite Hi. simpl. now rewrite Z.eqb_refl.
  - intros j t Hj. now rewrite Et, get_or_404_app, Hj.
  - rewrite <- Es in Hs. rewrite <- Eu in Hu.
    destruct (dashboard_returns st' rq2 u user Hs Hu) as [R _];
      [left; now rewrite Hq|].
    rewrite Hq in R. eexists. split; [exact R|].
    apply (Permutation_in _ (Permutation_sym (order_by_perm _))).
    apply filter_In. split.
    + rewrite Et. apply in_or_app. right. now left.
    + cbn. rewrite Z.eqb_refl. reflexivity.
Qed.

(** X16.  For a stored user the dashboard never changes the store or
    the session.  It fails, with the server-error page, when the search
    is not empty, its pattern exceeds 50000 bytes and the user has at
    least one task.  In every other case it renders a page that lists
    only rows of the tasks table owned by the user of the session,
    whatever the search string, and whose three counters are the number
    of listed tasks, of listed tasks that are completed and of listed
    tasks that are not. *)
Theorem dashboard_shows_own_tasks_and_counts
    (st : App) (rq : Request) (u : Z) (user : User.t) :
  Session.user_id (session st) = Some u ->
  user_get (users (db st)) u = Some user ->
  let q := strip (get (args rq) "search" EmptyString) in
  state_after dashboard st rq = st
  /\ (q <> EmptyString -> pattern_fits q = false ->
      tasks_of (tasks (db st)) u <> [] ->
      serve dashboard st rq = (internal_error, st))
  /\ (q = EmptyString \/ pattern_fits q = true \/ tasks_of (tasks (db st)) u = [] ->
      exists listing,
        rendered_tasks (dashboard st rq) = Some listing
        /\ (forall t, In t listing -> In t (tasks (db st)) /\ Task.user_id t = u)
        /\ rendered_counts (dashboard st rq)
           = Some (Z.of_nat (length listing),
                   Z.of_nat (length (filter Task.completed listing)),
                   Z.of_nat (length (filter (fun t => negb (Task.completed t))
                                       listing)))).
Proof.
  intros Hs Hu q.
  assert (q = EmptyString \/ pattern_fits q = true \/ tasks_of (tasks (db st)) u = [] ->
          falsy q = true \/ pattern_fits q = true \/ tasks_of (tasks (db st)) u = [])
    as Hcase by (intros [->|H]; auto).
  split; [|split].
  - unfold state_after, serve.
    destruct (falsy q) eqn:Fq;
      [|destruct (pattern_fits q) eqn:Ff;
        [|destruct (tasks_of (tasks (db st)) u) eqn:Ft]].
    + now rewrite (dashboard_renders st rq u user Hs Hu (or_introl Fq)).
    + now rewrite (dashboard_renders st rq u user Hs Hu (or_intror (or_introl Ff))).
    + now rewrite (dashboard_renders st rq u user Hs Hu (or_intror (or_intror Ft))).
    + rewrite (dashboard_raises st rq u user Hs Hu); [reflexivity | | exact Ff |].
      * intros E. fold q in E. rewrite E in Fq. discriminate.
      * rewrite Ft. discriminate.
  - intros Hq Hf Ht. unfold serve.
    now rewrite (dashboard_raises st rq u user Hs Hu Hq Hf Ht).
  - intros H. rewrite (dashboard_renders st rq u user Hs Hu (Hcase H)).
    eexists. split; [reflexivity|]. split.
    + intros t Ht. apply (Permutation_in _ (order_by_perm _)) in Ht.
      apply filter_In in Ht as [Hin Hb]. apply andb_prop in Hb as [Ho _].
      apply Z.eqb_eq in Ho. auto.
    + cbn [rendered_counts render_template body]. do 2 f_equal.
      match goal with
      | |- context [filter Task.completed ?l] =>
          pose proof (filter_partition_length Task.completed l)
      end. lia.
Qed.

(** X17.  A POST to [login] whose username is empty after stripping, or
    whose password is empty, is answered by the login page with the
    notice "Username and password are required.", without any lookup and
    without a session. *)
Theorem login_requires_both_fields (st : App) (rq : Request) :
  Session.user_id (session st) = None ->
  method rq = POST ->
  strip (get (form rq) "username" EmptyString) = EmptyString
  \/ get (form rq) "password" EmptyString = EmptyString ->
  serve login st rq
    = (render_template login_html
         [flash "Username and password are required." "error"], st).
Proof.
  intros Hs Hm H. unfold serve, login, Session.has_user_id. rewrite Hs, Hm.
  destruct H as [-> | ->]; [reflexivity|].
  now rewrite orb_true_r.
Qed.

(** X18.  Registration followed by login: when the hasher accepts the
    password against the hash it has just produced, a user registered
    with a username and a password is logged in by a later POST to
    [login] with that username (surrounding whitespace allowed) and that
    password, and the session then names the new user. *)
Theorem registered_user_can_log_in (st : App) (rq rq2 : Request) :
  Session.user_id (session st) = None ->
  method rq = POST ->
  let username := get (form rq) "username" EmptyString in
  let password := get (form rq) "password" EmptyString in
  username_rule username = true ->
  password_rule password = true ->
  get (form rq) "confirm_password" EmptyString = password ->
  user_by_username (users (db st)) username = None ->
  commit_ok rq = true ->
  check_password_hash (generate_password_hash (salt rq) password) password = true ->
  method rq2 = POST ->
  strip (get (form rq2) "username" EmptyString) = username ->
  get (form rq2) "password" EmptyString = password ->
  let st1 := state_after register st rq in
  let user := new_user (db st) rq username password in
  In user (users (db st1))
  /\ login st1 rq2 = login_success st1 user
  /\ Session.user_id (session (state_after login st1 rq2)) = Some (User.id user).
Proof.
  intros Hs Hm username password Hu Hp Hc Hfresh Hcommit Hcheck Hm2 Hu2 Hp2 st1 user.
  assert (E := register_validated st rq Hs Hm Hu Hp Hc). fold username password in E.
  rewrite Hfresh in E. unfold commit, add_user in E.
  cbn [new_user User.username] in E. rewrite Hfresh, Hcommit in E.
  assert (st1 = with_db st (with_users (db st) (users (db st) ++ [user]))) as S1
      by (unfold st1, state_after, serve; now rewrite E).
  assert (Session.user_id (session st1) = None) as Hs1 by (now rewrite S1).
  destruct (rule_not_empty username password Hu Hp) as [Fu Fp].
  assert (login st1 rq2 = login_success st1 user) as L.
  { rewrite (login_checks_credentials st1 rq2 Hs1 Hm2).
    - rewrite Hu2, Hp2, S1. cbn [db users with_db with_users].
      rewrite user_by_username_app, Hfresh. unfold user_by_username. simpl.
      rewrite String.eqb_refl. unfold check_password. cbn [User.password_hash user new_user].
      now rewrite Hcheck.
    - rewrite Hu2. intros H. rewrite H in Fu. discriminate.
    - rewrite Hp2. intros H. rewrite H in Fp. discriminate. }
  split; [rewrite S1; cbn; apply in_or_app; right; now left|].
  split; [exact L|]. unfold state_after, serve. rewrite L. reflexivity.
Qed.

End Sequences.

(** ** What holds of every reachable store *)

Lemma rstrip_idempotent (s : string) : rstrip (rstrip s) = rstrip s.
Proof.
  induction s as [|a s IH]; cbn [rstrip]; [reflexivity|].
  destruct (rstrip s) as [|b r] eqn:E.
  - destruct (isspace a) eqn:Ha; cbn [rstrip]; [reflexivity | now rewrite Ha].
  - change (rstrip (String a (String b r)))
      with (match rstrip (String b r) with
            | EmptyString => if isspace a then EmptyString else String a EmptyString
            | String c r' => String a (String c r')
            end).
    now rewrite IH.
Qed.

Lemma lstrip_head (s : string) :
  match lstrip s with EmptyString => True | String c _ => isspace c = false end.
Proof.
  induction s as [|a s IH]; simpl; [exact I|].
  destruct (isspace a) eqn:Ha; [exact IH | exact Ha].
Qed.

Lemma lstrip_rstrip (s : string) :
  match s with EmptyString => True | String c _ => isspace c = false end ->
  lstrip (rstrip s) = rstrip s.
Proof.
  destruct s as [|a s]; [reflexivity|]. intros Ha. cbn [rstrip].
  destruct (rstrip s); rewrite ?Ha; cbn [lstrip]; now rewrite Ha.
Qed.

Lemma strip_idempotent (s : string) : strip (strip s) = strip s.
Proof.
  unfold strip. rewrite (lstrip_rstrip _ (lstrip_head s)). apply rstrip_idempotent.
Qed.

Lemma map_id_replace (ts : list Task.t) (t' : Task.t) :
  map Task.id (map (fun x => if (Task.id x =? Task.id t')%Z then t' else x) ts)
  = map Task.id ts.
Proof.
  induction ts as [|x ts IH]; simpl; [reflexivity|]. rewrite IH.
  destruct (Task.id x =? Task.id t')%Z eqn:E; [|reflexivity].
  apply Z.eqb_eq in E. now rewrite E.
Qed.

Lemma NoDup_map_filter {A B : Type} (f : A -> B) (g : A -> bool) (l : list A) :
  NoDup (map f l) -> NoDup (map f (filter g l)).
Proof.
  induction l as [|x l IH]; simpl; [auto|].
  intros H. inversion H as [|? ? Hn Hd]; subst.
  destruct (g x); simpl; [|now apply IH].
  constructor; [|now apply IH].
  intros Hin. apply Hn. apply in_map_iff in Hin as (y & Ey & Hy).
  apply filter_In in Hy as [Hy _]. apply in_map_iff. eauto.
Qed.

Lemma NoDup_snoc {A : Type} (l : list A) (x : A) :
  NoDup l -> ~ In x l -> NoDup (l ++ [x]).
Proof.
  intros Hl Hx. apply NoDup_app; [exact Hl | repeat constructor; auto |].
  intros y Hy [<-|[]]. contradiction.
Qed.

Lemma next_id_fresh (ids : list Z) : ~ In (next_id ids) ids.
Proof. intros H. apply next_id_above in H. lia. Qed.

Lemma in_replace (ts : list Task.t) (t' x : Task.t) :
  In x (map (fun y => if (Task.id y =? Task.id t')%Z then t' else y) ts) ->
  x = t' \/ In x ts.
Proof.
  intros H. apply in_map_iff in H as (y & E & Hy).
  destruct (Task.id y =? Task.id t')%Z; subst; auto.
Qed.

Section Reachable.

Context `{Hasher : PasswordHasher}.

Lemma run_invariant (P : World -> Prop) :
  P initial ->
  (forall w v, P w -> P (visit w v)) ->
  forall visits, P (run initial visits).
Proof.
  intros H0 Hstep visits. unfold run.
  generalize initial H0. induction visits as [|v visits IH]; intros w Hw; simpl.
  - exact Hw.
  - apply IH. now apply Hstep.
Qed.

Lemma run_db_invariant (P : Database -> Prop) :
  P (w_db initial) ->
  (forall r st rq, P (db st) -> P (db (after r st rq))) ->
  forall visits, P (w_db (run initial visits)).
Proof.
  intros H0 Hstep. apply (run_invariant (fun w => P (w_db w))); [exact H0|].
  intros w v Hw. unfold visit. cbn [w_db]. now apply Hstep.
Qed.

Lemma usernames_after (r : Route) (st : App) (rq : Request) :
  usernames_unique (db st) /\ usernames_by_rule (db st) ->
  usernames_unique (db (after r st rq)) /\ usernames_by_rule (db (after r st rq)).
Proof.
  intros [Hu Hr]. unfold usernames_unique, usernames_by_rule, usernames in *.
  destruct (users_change_only_by_valid_registration r st rq)
    as [E|(_ & _ & _ & _ & Hrule & _ & _ & Hfresh & E)]; rewrite E; [auto|].
  split.
  - rewrite map_app. apply NoDup_snoc; [exact Hu|]. cbn.
    intros Hin. apply in_map_iff in Hin as (x & Ex & Hx).
    apply (proj1 (user_by_username_none _ _) Hfresh x Hx). exact Ex.
  - intros x Hx. apply in_app_or in Hx as [Hx|[<-|[]]]; [now apply Hr | exact Hrule].
Qed.

(** X19.  In every store reached from the empty one by any sequence of
    requests from any number of browsers, no two users have the same
    username and every stored username satisfies the rule table: 3 to 20
    letters, digits and underscores.  The newline that [validate_username]
    lets through never reaches the store, since [register] strips the
    username first. *)
Theorem reachable_usernames (visits : list Visit) :
  NoDup (usernames (w_db (run initial visits)))
  /\ forall u, In u (users (w_db (run initial visits))) ->
               username_rule (User.username u) = true.
Proof.
  apply (run_db_invariant (fun d => usernames_unique d /\ usernames_by_rule d)).
  - split; [constructor | intros u []].
  - intros r st rq. apply usernames_after.
Qed.

Lemma keys_after (r : Route) (st : App) (rq : Request) :
  keys_unique (db st) -> keys_unique (db (after r st rq)).
Proof.
  intros [Hu Ht]. unfold keys_unique, user_ids, task_ids in *. split.
  - destruct (users_change_only_by_valid_registration r st rq)
      as [E|(_ & _ & _ & _ & _ & _ & _ & _ & E)]; rewrite E; [exact Hu|].
    rewrite map_app. apply NoDup_snoc; [exact Hu | apply next_id_fresh].
  - destruct (tasks_change_only_by_owner r st rq)
      as [E|(_ & _ & [(u & _ & _ & _ & E)|(i & t & _ & _ & C)])].
    + now rewrite E.
    + rewrite E, map_app. apply NoDup_snoc; [exact Ht | apply next_id_fresh].
    + destruct C as [(_ & _ & E)|[(_ & E)|(_ & E)]]; rewrite E.
      * now rewrite map_id_replace.
      * now rewrite map_id_replace.
      * now apply NoDup_map_filter.
Qed.

(** X20.  In every reachable store the primary keys are unique: no two
    users share an id and no two tasks share an id; the key given to a
    new row is above every key in use. *)
Theorem reachable_keys_unique (visits : list Visit) :
  NoDup (user_ids (w_db (run initial visits)))
  /\ NoDup (task_ids (w_db (run initial visits))).
Proof.
  apply (run_db_invariant keys_unique).
  - split; constructor.
  - apply keys_after.
Qed.

Lemma form_row_valid (t : Task.t) (raw_title raw_description : string) :
  Task.title t = strip raw_title ->
  Task.description t = strip raw_description ->
  ~ task_form_invalid (strip raw_title) (strip raw_description) ->
  task_row_valid t.
Proof.
  intros Et Ed Hv. unfold task_row_valid, task_form_invalid in *.
  rewrite Et, Ed, !strip_idempotent. repeat split; try tauto; lia.
Qed.

Lemma tasks_valid_after (r : Route) (st : App) (rq : Request) :
  tasks_valid (db st) -> tasks_valid (db (after r st rq)).
Proof.
  intros Hv x. unfold tasks_valid in Hv.
  destruct (tasks_change_only_by_owner r st rq)
    as [E|(_ & _ & [(u & _ & _ & Hf & E)|(i & t & Hr & _ & C)])].
  - rewrite E. apply Hv.
  - rewrite E. intros Hx. apply in_app_or in Hx as [Hx|[<-|[]]]; [now apply Hv|].
    apply form_row_valid with (raw_title := get (form rq) "title" EmptyString)
                              (raw_description := get (form rq) "description" EmptyString);
      [reflexivity | reflexivity | exact Hf].
  - destruct (get_or_404_id _ _ _ Hr) as [_ Hin]. specialize (Hv t Hin) as Ht.
    destruct C as [(_ & Hf & E)|[(_ & E)|(_ & E)]]; rewrite E; intros Hx.
    + apply in_replace in Hx as [->|Hx]; [|now apply Hv].
      apply form_row_valid with (raw_title := get (form rq) "title" EmptyString)
                                (raw_description := get (form rq) "description" EmptyString);
        [reflexivity | reflexivity | exact Hf].
    + apply in_replace in Hx as [->|Hx]; [exact Ht | now apply Hv].
    + apply filter_In in Hx as [Hx _]. now apply Hv.
Qed.

(** X21.  In every reachable store every task has a title that is not
    empty and has at most 200 characters, a description of at most 200
    characters, and neither begins nor ends with whitespace. *)
Theorem reachable_tasks_valid (visits : list Visit) :
  forall t, In t (tasks (w_db (run initial visits))) ->
    Task.title t <> EmptyString
    /\ (len (Task.title t) <= 200)%Z
    /\ (len (Task.description t) <= 200)%Z
    /\ strip (Task.title t) = Task.title t
    /\ strip (Task.description t) = Task.description t.
Proof.
  apply (run_db_invariant tasks_valid).
  - intros t [].
  - apply tasks_valid_after.
Qed.

Lemma hashes_after (r : Route) (st : App) (rq : Request) :
  hashes_from_rule (db st) -> hashes_from_rule (db (after r st rq)).
Proof.
  intros Hh x. unfold hashes_from_rule in Hh.
  destruct (users_change_only_by_valid_registration r st rq)
    as [E|(_ & _ & _ & _ & _ & Hrule & _ & _ & E)]; rewrite E; [apply Hh|].
  intros Hx. apply in_app_or in Hx as [Hx|[<-|[]]]; [now apply Hh|].
  eexists _, _. split; [exact Hrule | reflexivity].
Qed.

(** X22.  In every reachable store the password column of every user
    is the value [generate_password_hash] returned, for some salt, on a
    password that satisfies the rule table. *)
Theorem reachable_hashes (visits : list Visit) :
  forall u, In u (users (w_db (run initial visits))) ->
    exists s password,
      password_rule password = true
      /\ User.password_hash u = generate_password_hash s password.
Proof.
  apply (run_db_invariant hashes_from_rule).
  - intros u [].
  - apply hashes_after.
Qed.

End Reachable.

Lemma user_get_found (us : list User.t) (user : User.t) :
  In user us -> exists v, user_get us (User.id user) = Some v.
Proof.
  intros Hin. unfold user_get.
  destruct (find (fun u => (User.id u =? User.id user)%Z) us) as [v|] eqn:F; [eauto|].
  apply (find_none _ _ F) in Hin. rewrite Z.eqb_refl in Hin. discriminate.
Qed.

Lemma session_valid_grows (d d' : Database) (s : Session.t) :
  (forall x, In x (users d) -> In x (users d')) ->
  session_valid d s -> session_valid d' s.
Proof.
  intros Hg Hs u Hu. destruct (Hs u Hu) as (user & Hin & Hid & Hn).
  exists user. auto.
Qed.

Section References.

Context `{Hasher : PasswordHasher}.

Lemma users_grow (r : Route) (st : App) (rq : Request) (x : User.t) :
  In x (users (db st)) -> In x (users (db (after r st rq))).
Proof.
  intros Hx.
  destruct (users_change_only_by_valid_registration r st rq)
    as [E|(_ & _ & _ & _ & _ & _ & _ & _ & E)]; rewrite E; [exact Hx|].
  apply in_or_app. now left.
Qed.

Lemma user_ids_grow (r : Route) (st : App) (rq : Request) (i : Z) :
  In i (user_ids (db st)) -> In i (user_ids (db (after r st rq))).
Proof.
  unfold user_ids. intros Hi. apply in_map_iff in Hi as (x & <- & Hx).
  apply in_map. now apply users_grow.
Qed.

Lemma sound_after (r : Route) (st : App) (rq : Request) :
  owners_exist (db st) ->
  session_valid (db st) (session st) ->
  owners_exist (db (after r st rq))
  /\ session_valid (db (after r st rq)) (session (after r st rq)).
Proof.
  intros Ho Hs. split.
  - intros x. unfold owners_exist in Ho.
    destruct (tasks_change_only_by_owner r st rq)
      as [E|(_ & _ & [(u & _ & Hu & _ & E)|(i & t & Hr & _ & C)])].
    + rewrite E. intros Hx. apply user_ids_grow. now apply Ho.
    + rewrite E. intros Hx. apply user_ids_grow.
      apply in_app_or in Hx as [Hx|[<-|[]]]; [now apply Ho|].
      destruct (Hs u Hu) as (user & Hin & Hid & _). cbn [new_task Task.user_id].
      rewrite <- Hid. unfold user_ids. now apply in_map.
    + destruct (get_or_404_id _ _ _ Hr) as [_ Hin]. specialize (Ho t Hin) as Ht.
      destruct C as [(_ & _ & E)|[(_ & E)|(_ & E)]]; rewrite E; intros Hx;
        apply user_ids_grow.
      * apply in_replace in Hx as [->|Hx]; [exact Ht | now apply Ho].
      * apply in_replace in Hx as [->|Hx]; [exact Ht | now apply Ho].
      * apply filter_In in Hx as [Hx _]. now apply Ho.
  - destruct (session_changes_only_by_login_or_clear r st rq)
      as [E|[(E & _)|(_ & _ & _ & user & Hf & _ & E)]]; rewrite E.
    + apply (session_valid_grows (db st)); [apply users_grow | exact Hs].
    + intros u Hu. discriminate Hu.
    + intros u Hu. cbn in Hu. injection Hu as <-.
      exists user. split; [|split; reflexivity].
      apply users_grow. now apply find_some in Hf as [Hin _].
Qed.

Lemma world_sound_visit (w : World) (v : Visit) :
  world_sound w -> world_sound (visit w v).
Proof.
  intros [Ho Hs]. unfold world_sound, visit. cbn [w_db w_cookies].
  destruct (sound_after (v_route v)
              {| db := w_db w; session := w_cookies w (v_browser v) |}
              (v_request v) Ho (Hs (v_browser v))) as [Ho' Hs'].
  split; [exact Ho'|]. intros b.
  destruct (b =? v_browser v)%nat; [exact Hs'|].
  apply (session_valid_grows (w_db w)); [|apply Hs].
  intros x. apply (users_grow (v_route v)
                     {| db := w_db w; session := w_cookies w (v_browser v) |}).
Qed.

(** X23.  In every world reached from the empty store by requests of
    any number of browsers, every task is owned by a stored user, and
    every session that holds a user id holds the id and the username of
    a stored user; so the dashboard of a logged-in browser never answers
    "User not found". *)
Theorem reachable_references (visits : list Visit) :
  let w := run initial visits in
  (forall t, In t (tasks (w_db w)) ->
     exists user, In user (users (w_db w)) /\ User.id user = Task.user_id t)
  /\ (forall b u, Session.user_id (w_cookies w b) = Some u ->
        (exists user, In user (users (w_db w)) /\ User.id user = u
                      /\ Session.username (w_cookies w b) = Some (User.username user))
        /\ exists user, user_get (users (w_db w)) u = Some user).
Proof.
  intros w.
  assert (world_sound w) as [Ho Hs].
  { apply run_invariant; [|apply world_sound_visit].
    split; [intros t [] | intros b u Hu; discriminate Hu]. }
  split.
  - intros t Ht. specialize (Ho t Ht). unfold user_ids in Ho.
    apply in_map_iff in Ho as (user & Hid & Hin). eauto.
  - intros b u Hu. destruct (Hs b u Hu) as (user & Hin & Hid & Hn).
    split; [eauto|]. subst u. now apply user_get_found.
Qed.

End References.

(** ** The properties on the sample store *)

Lemma anonymous_is_sent_to_login_witness :
  serve (route_view (route_delete_task 1)) Demo.anonymous (Demo.post [])
    = (redirect ep_login [flash "Please log in to access this page." "error"],
       Demo.anonymous).
Proof.
  apply (anonymous_is_sent_to_login (route_delete_task 1) Demo.anonymous (Demo.post []));
    reflexivity.
Defined.

Lemma error_pages_witness :
  fst (serve (route_view (route_toggle_task 99)) Demo.as_alice (Demo.post []))
    = not_found_error
  /\ fst (serve (route_view (route_toggle_task (2 ^ 63))) Demo.as_alice (Demo.post []))
     = internal_error
  /\ fst (serve (route_view route_dashboard) Demo.as_alice (Demo.search Demo.long_query))
     = internal_error.
Proof.
  assert (forall u, Session.user_id (session Demo.as_alice) = Some u ->
                    sqlite_integer u = true) as Hu
      by (intros u H; injection H as <-; reflexivity).
  split; [|split].
  - apply (error_pages (route_toggle_task 99) Demo.as_alice (Demo.post []) Hu).
    exists 1%Z, 99%Z. repeat split.
  - apply (error_pages (route_toggle_task (2 ^ 63)) Demo.as_alice (Demo.post []) Hu).
    exists 1%Z. split; [reflexivity|]. left. exists (2 ^ 63)%Z. repeat split.
  - apply (error_pages route_dashboard Demo.as_alice (Demo.search Demo.long_query) Hu).
    exists 1%Z. split; [reflexivity|]. right.
    split; [reflexivity|]. split; [discriminate|].
    split.
    { intros E.
      apply (f_equal (fun s => match s with EmptyString => true | _ => false end)) in E.
      vm_compute in E. discriminate E. }
    split; [vm_compute; reflexivity|].
    vm_compute. discriminate.
Defined.

Lemma logged_in_is_sent_to_dashboard_witness :
  serve (route_view route_register) Demo.as_alice (Demo.signup "carol_3" "Passw0rd!")
    = (redirect ep_dashboard [], Demo.as_alice).
Proof.
  apply (logged_in_is_sent_to_dashboard route_register Demo.as_alice
           (Demo.signup "carol_3" "Passw0rd!") 1); reflexivity.
Defined.


Lemma task_row_changes_only_by_owner_witness :
  get_or_404 (tasks (db (after (route_toggle_task 1) Demo.as_alice (Demo.post [])))) 1
    = Some (toggled Demo.milk 1000).
Proof.
  destruct (task_row_changes_only_by_owner (route_toggle_task 1) Demo.as_alice
              (Demo.post []) 1 Demo.milk eq_refl)
    as [E|(_ & _ & _ & [(E & _)|[(_ & E)|(E & _)]])];
    [vm_compute in E; discriminate E | discriminate E | exact E | discriminate E].
Defined.

Lemma strangers_leave_task_rows_alone_witness :
  get_or_404 (tasks (db (after (route_delete_task 3) Demo.as_alice (Demo.post [])))) 3
    = Some Demo.bobs.
Proof.
  apply (strangers_leave_task_rows_alone (route_delete_task 3) Demo.as_alice
           (Demo.post []) 3 Demo.bobs); [reflexivity | vm_compute; discriminate].
Defined.

Lemma task_identity_is_kept_witness :
  Task.id (edited Demo.milk "Buy oat milk" "1 l" 1000) = 1%Z
  /\ Task.user_id (edited Demo.milk "Buy oat milk" "1 l" 1000) = 1%Z
  /\ Task.created_at (edited Demo.milk "Buy oat milk" "1 l" 1000) = 200%Z.
Proof.
  apply (task_identity_is_kept (route_edit_task 1) Demo.as_alice
           (Demo.post [("title", "Buy oat milk"); ("description", "1 l")])
           1 Demo.milk (edited Demo.milk "Buy oat milk" "1 l" 1000));
    reflexivity.
Defined.

Lemma failed_commit_changes_nothing_witness :
  db (after route_add_task Demo.as_alice (Tour.failing POST [("title", "Call home")]))
    = Demo.store.
Proof.
  apply (failed_commit_changes_nothing route_add_task Demo.as_alice
           (Tour.failing POST [("title", "Call home")])); reflexivity.
Defined.

Lemma get_requests_are_safe_witness :
  db (after (route_edit_task 1) Demo.as_alice
        (Demo.request GET [("title", "Call home")] []))
    = Demo.store.
Proof.
  apply (get_requests_are_safe (route_edit_task 1) Demo.as_alice
           (Demo.request GET [("title", "Call home")] [])); reflexivity.
Defined.

Lemma deleted_task_is_gone_witness :
  get_or_404 (tasks (db (state_after (delete_task 1) Demo.as_alice (Demo.post [])))) 1
    = None
  /\ serve (toggle_task 1) (state_after (delete_task 1) Demo.as_alice (Demo.post []))
       (Demo.post [])
     = (not_found_error, state_after (delete_task 1) Demo.as_alice (Demo.post [])).
Proof.
  destruct (deleted_task_is_gone Demo.as_alice (Demo.post []) (Demo.post []) 1 1 Demo.milk
              eq_refl eq_refl eq_refl eq_refl) as (G & _ & _ & _ & N).
  split; [exact G|]. apply N. simpl. auto.
Defined.

Lemma added_task_is_stored_witness :
  get_or_404
    (tasks (db (state_after add_task Demo.as_alice (Demo.post [("title", " Call home ")]))))
    4
  = Some (new_task Demo.store (Demo.post [("title", " Call home ")])
            "Call home" EmptyString 1).
Proof.
  destruct (added_task_is_stored Demo.as_alice (Demo.post [("title", " Call home ")])
              (Demo.search EmptyString) 1 Demo.alice eq_refl eq_refl
              ltac:(vm_compute; intros [H|[H|H]]; discriminate H) eq_refl eq_refl
              eq_refl)
    as (_ & S & _).
  exact S.
Defined.

Lemma dashboard_shows_own_tasks_and_counts_witness :
  state_after dashboard Demo.as_alice (Demo.search "%") = Demo.as_alice
  /\ rendered_counts (dashboard Demo.as_alice (Demo.search "%")) = Some (2, 1, 1)%Z.
Proof.
  destruct (dashboard_shows_own_tasks_and_counts Demo.as_alice (Demo.search "%")
              1 Demo.alice eq_refl eq_refl) as (S & _ & _).
  split; [exact S | reflexivity].
Defined.

Lemma login_requires_both_fields_witness :
  serve login Demo.anonymous (Demo.post [("username", "   "); ("password", "Passw0rd!")])
    = (render_template login_html
         [flash "Username and password are required." "error"], Demo.anonymous).
Proof.
  apply (login_requires_both_fields Demo.anonymous
           (Demo.post [("username", "   "); ("password", "Passw0rd!")]));
    [reflexivity | reflexivity | left; reflexivity].
Defined.

Lemma registered_user_can_log_in_witness :
  Session.user_id
    (session (state_after login
                (state_after register Demo.anonymous (Demo.signup "carol_3" "Passw0rd!"))
                (Demo.post [("username", " carol_3 "); ("password", "Passw0rd!")])))
  = Some 3%Z.
Proof.
  apply (registered_user_can_log_in Demo.anonymous (Demo.signup "carol_3" "Passw0rd!")
           (Demo.post [("username", " carol_3 "); ("password", "Passw0rd!")]));
    reflexivity.
Defined.

(** The sample session of two browsers: two users, one task, toggled by
    nobody but its owner. *)
Lemma reachable_usernames_witness :
  usernames (w_db Tour.world) = ["alice_1"; "bob_22"]
  /\ NoDup (usernames (w_db Tour.world)).
Proof.
  split; [reflexivity|]. exact (proj1 (reachable_usernames Tour.visits)).
Defined.

Lemma reachable_keys_unique_witness :
  task_ids (w_db Tour.world) = [1%Z] /\ NoDup (user_ids (w_db Tour.world)).
Proof.
  split; [reflexivity|]. exact (proj1 (reachable_keys_unique Tour.visits)).
Defined.

Lemma reachable_tasks_valid_witness :
  map Task.title (tasks (w_db Tour.world)) = ["Buy milk"]
  /\ map Task.completed (tasks (w_db Tour.world)) = [false]
  /\ forall t, In t (tasks (w_db Tour.world)) -> strip (Task.title t) = Task.title t.
Proof.
  split; [reflexivity|]. split; [reflexivity|].
  intros t Ht. now apply (reachable_tasks_valid Tour.visits t Ht).
Defined.

Lemma reachable_references_witness :
  Session.user_id (w_cookies Tour.world 1) = Some 2%Z
  /\ exists user, user_get (users (w_db Tour.world)) 2 = Some user.
Proof.
  split; [reflexivity|].
  exact (proj2 (proj2 (reachable_references Tour.visits) 1%nat 2%Z eq_refl)).
Defined.

Lemma reachable_hashes_witness :
  exists s password,
    password_rule password = true
    /\ User.password_hash (nth 1 (users (w_db Tour.world)) Demo.alice)
       = generate_password_hash s password.
Proof.
  apply (reachable_hashes Tour.visits). right. left. reflexivity.
Defined.
